(** * nextjs-auth: cookie sessions, login and route authorization

    A shallow embedding of the authentication core of the repository:

    - [src/app/lib/session.ts]  ([createSession], [deleteSession], [getSession]),
    - [src/app/actions/auth.ts] ([isValidEmail], [login], [logout]),
    - [src/app/lib/dal.ts]      ([verifySession], [requireRole]),
    - the request gatekeeper    ([middleware], called [proxy] in Next.js 16),
    - the mock identity provider of the test-suite ([handlers]).

    JavaScript values are modelled as far as the code can observe them;
    exceptions are explicit ([completion]); the cookie jar is a finite map. *)

From stdpp Require Import gmap strings list pretty.
From Stdlib Require Import ZArith QArith Ascii String Lia.

Set Warnings "-register-all".

Local Open Scope string_scope.
Local Open Scope list_scope.
Local Open Scope Z_scope.

(** ** JavaScript values *)

Module JS.

(** A number produced by [JSON.parse]: a finite double (every finite double
    is a rational) or an overflow to [Infinity]. [JSON.parse] never yields
    [NaN]. *)
Inductive number :=
| Finite (q : Q)
| Infinite (negative : bool).

(** A value produced by [JSON.parse]. The properties of an object are kept
    in order; a key is looked up at its first occurrence. *)
Inductive json :=
| JNull
| JBool (b : bool)
| JNum (n : number)
| JStr (s : string)
| JArr (items : list json)
| JObj (props : list (string * json)).

(** A value that may also be [undefined]. *)
Definition jsval := option json.
Definition undefined : jsval := None.

Definition int (z : Z) : json := JNum (Finite (inject_Z z)).

(** What a [throw] carries, as far as this program tells them apart. *)
Inductive thrown :=
| SyntaxError
| TypeError
| FetchFailed
| NEXT_REDIRECT (url : string).

(** The outcome of evaluating an expression or a call. *)
Inductive completion (A : Type) :=
| Normal (a : A)
| Throw (e : thrown).
Arguments Normal {A} a.
Arguments Throw {A} e.

Definition cbind {A B} (c : completion A) (k : A -> completion B) : completion B :=
  match c with
  | Normal a => k a
  | Throw e => Throw e
  end.

(** [ToBoolean]: the test made by [if], [!], [&&]. *)
Definition ToBoolean (v : jsval) : bool :=
  match v with
  | None => false
  | Some JNull => false
  | Some (JBool b) => b
  | Some (JNum (Finite q)) => negb (Qnum q =? 0)
  | Some (JNum (Infinite _)) => true
  | Some (JStr s) => negb (s =? "")%string
  | Some (JArr _) => true
  | Some (JObj _) => true
  end.

Fixpoint lookup_prop (key : string) (props : list (string * json)) : jsval :=
  match props with
  | [] => undefined
  | (k, v) :: rest => if (k =? key)%string then Some v else lookup_prop key rest
  end.

Definition has_own (key : string) (props : list (string * json)) : bool :=
  match lookup_prop key props with Some _ => true | None => false end.

(** [v.key] for the property names this program reads ([expiresAt],
    [userId], [email], [role], [access_token], [id]), none of which is
    defined on a built-in prototype: reading from [null] throws, reading
    from a primitive or an array gives [undefined]. *)
Definition Get (v : json) (key : string) : completion jsval :=
  match v with
  | JNull => Throw TypeError
  | JObj props => Normal (lookup_prop key props)
  | _ => Normal undefined
  end.

(** [v?.key] for the same property names. *)
Definition OptGet (v : json) (key : string) : jsval :=
  match v with
  | JNull => undefined
  | JObj props => lookup_prop key props
  | _ => undefined
  end.

(** [a === b] against a string constant. *)
Definition strict_eq_string (v : jsval) (s : string) : bool :=
  match v with
  | Some (JStr r) => (r =? s)%string
  | _ => false
  end.

(** [roles.includes(v)] for an array of strings. *)
Definition includes (roles : list string) (v : jsval) : bool :=
  existsb (strict_eq_string v) roles.

(** A string handed to [JSON.parse], identified by what [JSON.parse] makes
    of it: either it is not JSON ([raw] is then the text itself; the empty
    string is [NotJSON ""]), or it is the JSON text of the value [v]. *)
Inductive text :=
| NotJSON (raw : string)
| JSONText (v : json).

Definition text_nonempty (t : text) : bool :=
  match t with
  | NotJSON raw => negb (raw =? "")%string
  | JSONText _ => true
  end.

Definition JSON_parse (t : text) : completion json :=
  match t with
  | NotJSON _ => Throw SyntaxError
  | JSONText v => Normal v
  end.

(** What [JSON.parse] reads back from a serialized value: [Infinity] is
    written as [null]. *)
Fixpoint JSON_normal (v : json) : json :=
  match v with
  | JNum (Infinite _) => JNull
  | JArr items => JArr (List.map JSON_normal items)
  | JObj props => JObj (List.map (fun kv => (fst kv, JSON_normal (snd kv))) props)
  | _ => v
  end.

(** [JSON.stringify] of an object literal: a property whose value is
    [undefined] is left out. *)
Fixpoint stringify_props (props : list (string * jsval)) : list (string * json) :=
  match props with
  | [] => []
  | (k, Some v) :: rest => (k, JSON_normal v) :: stringify_props rest
  | (_, None) :: rest => stringify_props rest
  end.

Definition JSON_stringify (props : list (string * jsval)) : text :=
  JSONText (JObj (stringify_props props)).

(** The parts of the JavaScript engine that the model takes as given: the
    date-string parser (implementation-defined outside the ISO format;
    [None] is an invalid date, i.e. a [NaN] time value),
    [Number.prototype.toString] and [Date.prototype.toISOString]. *)
Class Platform := {
  Date_parse : string -> option Z;
  Number_toString : number -> string;
  Date_toISOString : Z -> string
}.

Section WithPlatform.
Context `{Platform}.

(** [String(v)]: an array joins its elements ([null] printing as the empty
    string); an object from [JSON.parse] prints as [[object Object]] unless
    an own, non-callable [toString] property hides the inherited method, in
    which case the conversion throws. *)
Fixpoint ToString (v : json) : completion string :=
  match v with
  | JNull => Normal "null"
  | JBool true => Normal "true"
  | JBool false => Normal "false"
  | JNum n => Normal (Number_toString n)
  | JStr s => Normal s
  | JArr items =>
      (fix join (l : list json) : completion string :=
         match l with
         | [] => Normal ""
         | x :: rest =>
             cbind (match x with JNull => Normal "" | _ => ToString x end) (fun sx =>
             match rest with
             | [] => Normal sx
             | _ => cbind (join rest) (fun sr => Normal (sx +:+ "," +:+ sr))
             end)
         end) items
  | JObj props => if has_own "toString" props then Throw TypeError else Normal "[object Object]"
  end.

(** Interpolation in a template literal. *)
Definition template (v : jsval) : completion string :=
  match v with
  | None => Normal "undefined"
  | Some j => ToString j
  end.

Definition max_time : Z := 8640000000000000.

(** [TimeClip] of a number: out of range is an invalid date, otherwise the
    number is truncated towards zero. *)
Definition TimeClip (n : number) : option Z :=
  match n with
  | Infinite _ => None
  | Finite q =>
      if Z.abs (Qnum q) >? max_time * Z.pos (Qden q) then None
      else Some (Z.quot (Qnum q) (Z.pos (Qden q)))
  end.

(** The time value of [new Date(value)]; [None] is an invalid date. *)
Definition Date_new (value : jsval) : completion (option Z) :=
  match value with
  | None => Normal None
  | Some JNull => Normal (Some 0)
  | Some (JBool b) => Normal (Some (if b then 1 else 0))
  | Some (JNum n) => Normal (TimeClip n)
  | Some (JStr s) => Normal (Date_parse s)
  | Some v => cbind (ToString v) (fun s => Normal (Date_parse s))
  end.

End WithPlatform.

(** [a < b] on two dates: false as soon as one of them is invalid. *)
Definition Date_lt (a b : option Z) : bool :=
  match a, b with
  | Some x, Some y => x <? y
  | _, _ => false
  end.

End JS.

Import JS.

(** ** The request context: cookie jar, clock, upstream service *)

Module Runtime.

(** A cookie as [cookies().set(name, value, options)] stores it. *)
Record cookie := {
  cookie_value : text;
  httpOnly : bool;
  secure : bool;
  expires : Z;
  sameSite : string;
  cookie_path : string
}.

(** A call of [fetch] and what comes back. The body of a request or of a
    response is a text that may or may not be JSON. *)
Record fetch_request := {
  url : string;
  method : string;
  headers : list (string * string);
  body : option text
}.

Record response := {
  status : Z;
  response_body : text
}.

(** [response.ok] *)
Definition ok (r : response) : bool := (200 <=? status r) && (status r <=? 299).

(** What the program does to the outside, in order. *)
Inductive event :=
| CookieSet (name : string) (c : cookie)
| CookieDelete (name : string)
| Fetched (r : fetch_request)
| Redirected (target : string)
| ConsoleError (e : thrown).

(** The surroundings of one request: the clock ([Date.now()], in
    milliseconds since the epoch), [process.env.NODE_ENV === "production"],
    and the network: [None] is a [fetch] whose promise rejects. *)
Record env := {
  now : Z;
  production : bool;
  network : fetch_request -> option response
}.

(** The state one request can change: the cookie jar behind [cookies()],
    and the trace of what was done. *)
Record world := {
  cookies : gmap string cookie;
  log : list event
}.

(** An [async] function: reads the surroundings, changes the world, and
    either returns or throws. What was done before a [throw] stays done. *)
Definition action (A : Type) : Type := env -> world -> completion A * world.

Definition ret {A} (a : A) : action A := fun _ w => (Normal a, w).

Definition bind {A B} (c : action A) (k : A -> action B) : action B :=
  fun e w =>
    match c e w with
    | (Normal a, w') => k a e w'
    | (Throw x, w') => (Throw x, w')
    end.

Definition throw {A} (x : thrown) : action A := fun _ w => (Throw x, w).

(** [try { body } catch (error) { handler }] *)
Definition try_catch {A} (body : action A) (handler : thrown -> action A) : action A :=
  fun e w =>
    match body e w with
    | (Normal a, w') => (Normal a, w')
    | (Throw x, w') => handler x e w'
    end.

(** An expression that may throw, evaluated inside an action. *)
Definition lift {A} (c : completion A) : action A := fun _ w => (c, w).

Definition emit (ev : event) : action unit :=
  fun _ w => (Normal tt, {| cookies := cookies w; log := log w ++ [ev] |}).

Definition Date_now : action Z := fun e w => (Normal (now e), w).

Definition NODE_ENV_is_production : action bool := fun e w => (Normal (production e), w).

(** [(await cookies()).get(name)?.value] *)
Definition cookies_get_value (name : string) : action (option text) :=
  fun _ w => (Normal (cookie_value <$> cookies w !! name), w).

(** [cookieStore.set(name, value, options)] *)
Definition cookies_set (name : string) (c : cookie) : action unit :=
  fun _ w => (Normal tt, {| cookies := <[name := c]> (cookies w);
                            log := log w ++ [CookieSet name c] |}).

(** [cookieStore.delete(name)] *)
Definition cookies_delete (name : string) : action unit :=
  fun _ w => (Normal tt, {| cookies := delete name (cookies w);
                            log := log w ++ [CookieDelete name] |}).

(** [await fetch(url, init)] *)
Definition fetch (r : fetch_request) : action response :=
  fun e w =>
    let w' := {| cookies := cookies w; log := log w ++ [Fetched r] |} in
    match network e r with
    | Some resp => (Normal resp, w')
    | None => (Throw FetchFailed, w')
    end.

(** [await response.json()] *)
Definition response_json (r : response) : action json := lift (JSON_parse (response_body r)).

(** [redirect(target)] of [next/navigation]: it does not return. It throws
    the framework's [NEXT_REDIRECT] error, and the redirect takes place when
    that error reaches the framework. *)
Definition redirect {A} (target : string) : action A :=
  bind (emit (Redirected target)) (fun _ => throw (NEXT_REDIRECT target)).

(** [console.error(label, error)] *)
Definition console_error (x : thrown) : action unit := emit (ConsoleError x).

(** [!cookie] for a cookie value that may be absent. *)
Definition cookie_missing (c : option text) : bool :=
  match c with
  | None => true
  | Some t => negb (text_nonempty t)
  end.

End Runtime.

Import Runtime.

Declare Scope action_scope.
Delimit Scope action_scope with action.
Notation "x <- c ;; k" := (bind c (fun x => k))
  (at level 100, c at next level, right associativity) : action_scope.
Notation "c ;;; k" := (bind c (fun _ => k))
  (at level 100, right associativity) : action_scope.

(** ** src/app/lib/session.ts *)

Module Session.
Section WithPlatform.
Context `{Platform}.
Local Open Scope action_scope.

Definition seven_days : Z := 7 * 24 * 60 * 60 * 1000.

(** The object literal [session] of [createSession]. *)
Definition SessionPayload (userId email role : jsval) (expiresAt : Z) : list (string * jsval) :=
  [("userId", userId); ("email", email); ("role", role);
   ("expiresAt", Some (JStr (Date_toISOString expiresAt)))].

(** [createSession(userId, email, role)]. The arguments are whatever the
    caller read from the profile; [Date.now()] is a current time, so adding
    seven days stays within the range of time values. *)
Definition createSession (userId email role : jsval) : action unit :=
  t <- Date_now ;;
  let expiresAt := t + seven_days in
  let session := SessionPayload userId email role expiresAt in
  prod <- NODE_ENV_is_production ;;
  cookies_set "session"
    {| cookie_value := JSON_stringify session;
       httpOnly := true;
       secure := prod;
       expires := expiresAt;
       sameSite := "lax";
       cookie_path := "/" |}.

Definition deleteSession : action unit := cookies_delete "session".

(** [getSession()]: [JNull] is the [null] it returns. *)
Definition getSession : action json :=
  cookie <- cookies_get_value "session" ;;
  match cookie with
  | None => ret JNull
  | Some c =>
      if negb (text_nonempty c) then ret JNull
      else
        try_catch
          (session <- lift (JSON_parse c) ;;
           expiresAt <- lift (Get session "expiresAt") ;;
           d <- lift (Date_new expiresAt) ;;
           t <- Date_now ;;
           if Date_lt d (Some t) then ret JNull else ret session)
          (fun error => ret JNull)
  end.

End WithPlatform.
End Session.

(** ** src/app/actions/auth.ts *)

Module Auth.

Definition bytes (l : list nat) : string :=
  string_of_list_ascii (List.map ascii_of_nat l).

(** The characters matched by [\s] and removed by [trim()] (white space and
    line terminators), in the UTF-8 encoding of the strings:
    U+0009-000D, U+0020, U+00A0, U+1680, U+2000-200A, U+2028, U+2029,
    U+202F, U+205F, U+3000, U+FEFF. *)
Definition white_space : list string :=
  List.map bytes
    [[9]; [10]; [11]; [12]; [13]; [32]; [194; 160]; [225; 154; 128];
     [226; 128; 128]; [226; 128; 129]; [226; 128; 130]; [226; 128; 131];
     [226; 128; 132]; [226; 128; 133]; [226; 128; 134]; [226; 128; 135];
     [226; 128; 136]; [226; 128; 137]; [226; 128; 138];
     [226; 128; 168]; [226; 128; 169]; [226; 128; 175]; [226; 129; 159];
     [227; 128; 128]; [239; 187; 191]]%nat.

(** The rest of [s] after one leading white-space character, if any. *)
Definition strip_space (s : string) : option string :=
  match List.find (fun ws => String.prefix ws s) white_space with
  | Some ws => Some (String.substring (String.length ws) (String.length s - String.length ws) s)
  | None => None
  end.

Definition starts_with_space (s : string) : bool :=
  match strip_space s with Some _ => true | None => false end.

(** [s] contains a character matched by [\s]. *)
Fixpoint has_space (s : string) : bool :=
  match s with
  | EmptyString => false
  | String _ rest => starts_with_space s || has_space rest
  end.

Fixpoint has_char (c : ascii) (s : string) : bool :=
  match s with
  | EmptyString => false
  | String d rest => Ascii.eqb c d || has_char c rest
  end.

(** [s] up to its first [c], and what follows it. *)
Fixpoint split_at (c : ascii) (s : string) : option (string * string) :=
  match s with
  | EmptyString => None
  | String d rest =>
      if Ascii.eqb c d then Some (EmptyString, rest)
      else match split_at c rest with
           | Some (l, r) => Some (String d l, r)
           | None => None
           end
  end.

(** [s] has a dot that is followed by at least one more character. *)
Fixpoint dot_before_end (s : string) : bool :=
  match s with
  | String c (String _ _ as rest) => Ascii.eqb c "." || dot_before_end rest
  | _ => false
  end.

(** [/^[^\s@]+@[^\s@]+\.[^\s@]+$/.test(email)]: a non-empty local part,
    one [@], and after it a dot with something on both sides; no white
    space and no second [@] anywhere. *)
Definition isValidEmail (email : string) : bool :=
  match split_at "@" email with
  | None => false
  | Some (local, domain) =>
      negb (local =? "")%string && negb (has_space local)
      && negb (has_char "@" domain) && negb (has_space domain)
      && match domain with
         | EmptyString => false
         | String _ rest => dot_before_end rest
         end
  end.

(** [s.trim().length === 0] *)
Fixpoint blank_within (fuel : nat) (s : string) : bool :=
  match s with
  | EmptyString => true
  | _ => match fuel with
         | O => false
         | S fuel' => match strip_space s with
                      | Some rest => blank_within fuel' rest
                      | None => false
                      end
         end
  end.

Definition trims_to_empty (s : string) : bool := blank_within (String.length s) s.

(** A field of a submitted form: text, or an uploaded file. *)
Inductive FormDataEntryValue :=
| EntryString (s : string)
| EntryFile (filename : string).

Definition FormData := list (string * FormDataEntryValue).

(** [formData.get(name)]; [None] is [null]. *)
Fixpoint formData_get (fd : FormData) (name : string) : option FormDataEntryValue :=
  match fd with
  | [] => None
  | (k, v) :: rest => if (k =? name)%string then Some v else formData_get rest name
  end.

(** [!value] *)
Definition entry_falsy (v : option FormDataEntryValue) : bool :=
  match v with
  | None => true
  | Some (EntryString s) => (s =? "")%string
  | Some (EntryFile _) => false
  end.

(** [String(value)], as the regular expression and [JSON.stringify] see a
    value that the code casts [as string]. *)
Definition entry_string (v : option FormDataEntryValue) : string :=
  match v with
  | None => "null"
  | Some (EntryString s) => s
  | Some (EntryFile _) => "[object File]"
  end.

(** [value.trim().length === 0]; only a string has a [trim] method. *)
Definition entry_trims_to_empty (v : option FormDataEntryValue) : completion bool :=
  match v with
  | Some (EntryString s) => Normal (trims_to_empty s)
  | _ => Throw TypeError
  end.

(** The [errors] object of [login], and the state [login] returns. *)
Record field_errors := {
  email_error : option string;
  password_error : option string
}.

Inductive LoginFormState :=
| Errors (errors : field_errors)
| Message (message : string).

(** [Object.keys(errors).length] *)
Definition keys_length (e : field_errors) : Z :=
  (match email_error e with Some _ => 1 | None => 0 end)
  + (match password_error e with Some _ => 1 | None => 0 end).

Definition PLATZI_API_URL : string := "https://api.escuelajs.co/api/v1".

Section WithPlatform.
Context `{Platform}.
Local Open Scope action_scope.

(** [login(state, formData)]. The [redirect] is called inside the [try]
    block, exactly as in the source. *)
Definition login (state : option LoginFormState) (formData : FormData) : action LoginFormState :=
  let email := formData_get formData "email" in
  let password := formData_get formData "password" in
  let email_error :=
    if entry_falsy email || negb (isValidEmail (entry_string email))
    then Some "Please enter a valid email address." else None in
  password_missing <-
    lift (if entry_falsy password then Normal true else entry_trims_to_empty password) ;;
  let password_error :=
    if (password_missing : bool) then Some "Password is required." else None in
  let errors := {| email_error := email_error; password_error := password_error |} in
  if keys_length errors >? 0 then ret (Errors errors)
  else
    try_catch
      (loginResponse <- fetch
         {| url := PLATZI_API_URL +:+ "/auth/login";
            method := "POST";
            headers := [("Content-Type", "application/json")];
            body := Some (JSON_stringify
                            [("email", Some (JStr (entry_string email)));
                             ("password", Some (JStr (entry_string password)))]) |} ;;
       if negb (ok loginResponse)
       then ret (Message "Invalid email or password. Please try again.")
       else
         authData <- response_json loginResponse ;;
         access_token <- lift (Get authData "access_token") ;;
         bearer <- lift (template access_token) ;;
         profileResponse <- fetch
           {| url := PLATZI_API_URL +:+ "/auth/profile";
              method := "GET";
              headers := [("Authorization", "Bearer " +:+ bearer)];
              body := None |} ;;
         if negb (ok profileResponse)
         then ret (Message "Failed to fetch user profile.")
         else
           user <- response_json profileResponse ;;
           id <- lift (Get user "id") ;;
           email <- lift (Get user "email") ;;
           role <- lift (Get user "role") ;;
           Session.createSession id email role ;;;
           redirect "/dashboard")
      (fun error =>
         console_error error ;;;
         ret (Message "An error occurred during login. Please try again.")).

(** [logout()] *)
Definition logout : action unit :=
  Session.deleteSession ;;;
  redirect "/login".

End WithPlatform.
End Auth.

(** ** src/app/lib/dal.ts *)

Module Dal.
Section WithPlatform.
Context `{Platform}.
Local Open Scope action_scope.

(** What [verifySession] returns. *)
Record verified := {
  isAuth : bool;
  userId : jsval;
  email : jsval;
  role : jsval
}.

(** [verifySession()]. React's [cache] only memoizes the call within one
    request, during which the cookie jar read here does not change. *)
Definition verifySession : action verified :=
  session <- Session.getSession ;;
  (if negb (ToBoolean (OptGet session "userId")) then redirect "/login" else ret tt) ;;;
  userId <- lift (Get session "userId") ;;
  email <- lift (Get session "email") ;;
  role <- lift (Get session "role") ;;
  ret {| isAuth := true; userId := userId; email := email; role := role |}.

(** [requireRole(allowedRoles)] *)
Definition requireRole (allowedRoles : list string) : action verified :=
  session <- verifySession ;;
  (if negb (includes allowedRoles (role session)) then redirect "/dashboard" else ret tt) ;;;
  ret session.

End WithPlatform.
End Dal.

(** ** The gatekeeper: middleware.ts (proxy.ts) *)

Module Gatekeeper.

Definition protectedRoutes : list string := ["/dashboard"; "/admin"].
Definition publicRoutes : list string := ["/login"; "/"].

(** The request, as the gatekeeper reads it: [req.nextUrl.pathname] and
    the values of the cookies sent with it. *)
Record NextRequest := {
  pathname : string;
  request_cookies : gmap string text
}.

(** A URL on the origin of the request. *)
Record URL := {
  url_pathname : string;
  searchParams : list (string * string)
}.

Inductive NextResponse :=
| next
| redirect_to (target : URL).

Section WithPlatform.
Context `{Platform}.

(** The value of the variable [session] after the [if (cookie)] block:
    [JNull] is [null]. *)
Definition session_of_cookie (now : Z) (cookie : option text) : json :=
  if cookie_missing cookie then JNull
  else
    match cookie with
    | None => JNull
    | Some c =>
        match
          cbind (JSON_parse c) (fun session =>
          cbind (Get session "expiresAt") (fun expiresAt =>
          if ToBoolean expiresAt
          then cbind (Date_new expiresAt) (fun d =>
               if Date_lt d (Some now) then Normal JNull else Normal session)
          else Normal session))
        with
        | Normal session => session
        | Throw _ => JNull
        end
    end.

(** [middleware(req)], run at the instant [now]. *)
Definition middleware (now : Z) (req : NextRequest) : NextResponse :=
  let path := pathname req in
  let isProtectedRoute := existsb (fun route => String.prefix route path) protectedRoutes in
  let isPublicRoute := existsb (String.eqb path) publicRoutes in
  let cookie := request_cookies req !! "session" in
  let session := session_of_cookie now cookie in
  if isProtectedRoute && negb (ToBoolean (OptGet session "userId"))
  then redirect_to {| url_pathname := "/login"; searchParams := [("redirect", path)] |}
  else if isPublicRoute && (path =? "/login")%string && ToBoolean (OptGet session "userId")
  then redirect_to {| url_pathname := "/dashboard"; searchParams := [] |}
  else if String.prefix "/admin" path && negb (strict_eq_string (OptGet session "role") "admin")
  then redirect_to {| url_pathname := "/dashboard"; searchParams := [] |}
  else next.

End WithPlatform.

(** *** The route table and the decision table of the specification

    The specification reads the constants of the gatekeeper as one table of
    prefix-matched entries, each classified public, protected, or protected
    with a set of roles; it classifies a path by its longest matching
    prefix and decides by a table. These definitions follow the
    specification; the theorems compare [middleware] with them. *)

Inductive classification :=
| Public
| Protected
| ProtectedRoles (roles : list string).

Record route_entry := {
  pathPrefix : string;
  class : classification
}.

(** The route classification table. Its entries are the constants of the
    source: [protectedRoutes], with the role that the [/admin] check asks
    for, and [publicRoutes]. *)
Definition spec_route_table : list route_entry :=
  [ {| pathPrefix := "/dashboard"; class := Protected |};
    {| pathPrefix := "/admin"; class := ProtectedRoles ["admin"] |};
    {| pathPrefix := "/login"; class := Public |};
    {| pathPrefix := "/"; class := Public |} ].

Definition matches (path : string) (e : route_entry) : bool :=
  String.prefix (pathPrefix e) path.

Definition matching_entries (path : string) : list route_entry :=
  List.filter (matches path) spec_route_table.

(** The entry with the longest prefix among [l]; the first one on a tie. *)
Fixpoint longest (l : list route_entry) : option route_entry :=
  match l with
  | [] => None
  | e :: rest =>
      match longest rest with
      | Some e' =>
          if (String.length (pathPrefix e) <? String.length (pathPrefix e'))%nat
          then Some e' else Some e
      | None => Some e
      end
  end.

(** Classification by the most specific matching entry; a path that
    matches no entry is public. *)
Definition spec_classify (path : string) : classification :=
  match longest (matching_entries path) with
  | Some e => class e
  | None => Public
  end.

(** The decision table, for a path of class [c], given whether a valid
    session is present and the role it carries. *)
Definition spec_decision (c : classification) (path : string) (has_session : bool)
    (role : jsval) : NextResponse :=
  match c with
  | Public =>
      if (path =? "/login")%string && has_session
      then redirect_to {| url_pathname := "/dashboard"; searchParams := [] |}
      else next
  | Protected =>
      if has_session then next
      else redirect_to {| url_pathname := "/login"; searchParams := [("redirect", path)] |}
  | ProtectedRoles roles =>
      if has_session
      then if includes roles role then next
           else redirect_to {| url_pathname := "/dashboard"; searchParams := [] |}
      else redirect_to {| url_pathname := "/login"; searchParams := [("redirect", path)] |}
  end.

End Gatekeeper.

(** ** The mock identity provider of the test-suite: mocks/handlers.ts *)

Module Mocks.

Definition header (name : string) (r : fetch_request) : option string :=
  snd <$> List.find (fun h => (fst h =? name)%string) (headers r).

Definition mock_user : json :=
  JObj [("id", int 1);
        ("email", JStr "john@mail.com");
        ("name", JStr "John Doe");
        ("role", JStr "customer");
        ("avatar", JStr "https://api.dicebear.com/7.x/avataaars/svg?seed=John");
        ("password", JStr "changeme")].

Definition message_body (m : string) : text := JSONText (JObj [("message", JStr m)]).

(** [handlers], as the function from a request to what [fetch] resolves
    to. The two handlers that [login] reaches are modelled. A request that
    neither of them takes, and a login request whose body the handler cannot
    read (which [login] never sends), are left unanswered here. *)
Definition handlers (r : fetch_request) : option response :=
  if ((method r =? "POST") && (url r =? Auth.PLATZI_API_URL +:+ "/auth/login"))%string
  then
    match body r with
    | Some b =>
        match cbind (JSON_parse b) (fun body =>
              cbind (Get body "email") (fun email =>
              cbind (Get body "password") (fun password =>
              Normal (strict_eq_string email "john@mail.com"
                      && strict_eq_string password "changeme"))))
        with
        | Normal true =>
            Some {| status := 200;
                    response_body :=
                      JSONText (JObj [("access_token", JStr "mock-access-token-123");
                                      ("refresh_token", JStr "mock-refresh-token-456")]) |}
        | Normal false =>
            Some {| status := 401; response_body := message_body "Invalid credentials" |}
        | Throw _ => None
        end
    | None => None
    end
  else if ((method r =? "GET") && (url r =? Auth.PLATZI_API_URL +:+ "/auth/profile"))%string
  then
    match header "Authorization" r with
    | Some "Bearer mock-access-token-123" =>
        Some {| status := 200; response_body := JSONText mock_user |}
    | _ => Some {| status := 401; response_body := message_body "Unauthorized" |}
    end
  else None.

(** A network on which every [fetch] rejects, as under
    [HttpResponse.error()]. *)
Definition unreachable (r : fetch_request) : option response := None.

(** The handlers with the profile route overridden by a 401 response, as
    the test of the profile failure installs them with [server.use]. *)
Definition handlers_without_profile (r : fetch_request) : option response :=
  if ((method r =? "GET") && (url r =? Auth.PLATZI_API_URL +:+ "/auth/profile"))%string
  then Some {| status := 401; response_body := message_body "Unauthorized" |}
  else handlers r.

End Mocks.

(** ** A reference engine, to run the model on concrete inputs *)

Module Reference.

Definition digit (c : ascii) : option Z :=
  let n := Z.of_nat (nat_of_ascii c) in
  if (48 <=? n) && (n <=? 57) then Some (n - 48) else None.

(** Reads exactly [n] decimal digits. *)
Fixpoint digits (n : nat) (acc : Z) (s : string) : option (Z * string) :=
  match n with
  | O => Some (acc, s)
  | S n' =>
      match s with
      | String c rest =>
          match digit c with
          | Some d => digits n' (10 * acc + d) rest
          | None => None
          end
      | EmptyString => None
      end
  end.

Definition expect (c : ascii) (s : string) : option string :=
  match s with
  | String d rest => if Ascii.eqb c d then Some rest else None
  | EmptyString => None
  end.

Definition leap (y : Z) : bool :=
  ((y mod 4 =? 0) && negb (y mod 100 =? 0)) || (y mod 400 =? 0).

Definition days_in_month (y m : Z) : Z :=
  if m =? 2 then (if leap y then 29 else 28)
  else if (m =? 4) || (m =? 6) || (m =? 9) || (m =? 11) then 30
  else 31.

(** Days from 1970-01-01 to the given day of the proleptic Gregorian
    calendar. *)
Definition days_from_civil (y m d : Z) : Z :=
  let y' := if m <=? 2 then y - 1 else y in
  let era := y' / 400 in
  let yoe := y' - era * 400 in
  let mp := (m + 9) mod 12 in
  let doy := (153 * mp + 2) / 5 + d - 1 in
  let doe := yoe * 365 + yoe / 4 - yoe / 100 + doy in
  era * 146097 + doe - 719468.

Definition civil_from_days (z : Z) : Z * Z * Z :=
  let z' := z + 719468 in
  let era := z' / 146097 in
  let doe := z' - era * 146097 in
  let yoe := (doe - doe / 1460 + doe / 36524 - doe / 146096) / 365 in
  let doy := doe - (365 * yoe + yoe / 4 - yoe / 100) in
  let mp := (5 * doy + 2) / 153 in
  let d := doy - (153 * mp + 2) / 5 + 1 in
  let m := if mp <? 10 then mp + 3 else mp - 9 in
  let y := yoe + era * 400 in
  (if m <=? 2 then y + 1 else y, m, d).

(** [Date.parse] on the format [YYYY-MM-DDTHH:mm:ss.sssZ], the one that
    [toISOString] writes for the years 0000 to 9999. Every other string is
    an invalid date for this parser; real engines accept more. *)
Definition Date_parse (s : string) : option Z :=
  '(Y, s) ← digits 4 0 s;
  s ← expect "-" s;
  '(M, s) ← digits 2 0 s;
  s ← expect "-" s;
  '(D, s) ← digits 2 0 s;
  s ← expect "T" s;
  '(h, s) ← digits 2 0 s;
  s ← expect ":" s;
  '(m, s) ← digits 2 0 s;
  s ← expect ":" s;
  '(sec, s) ← digits 2 0 s;
  s ← expect "." s;
  '(ms, s) ← digits 3 0 s;
  s ← expect "Z" s;
  if (s =? "")%string
     && (1 <=? M) && (M <=? 12) && (1 <=? D) && (D <=? days_in_month Y M)
     && ((h <=? 23) && (m <=? 59) && (sec <=? 59)
         || (h =? 24) && (m =? 0) && (sec =? 0) && (ms =? 0))
  then Some (days_from_civil Y M D * 86400000
             + h * 3600000 + m * 60000 + sec * 1000 + ms)
  else None.

(** [z] written with exactly [n] decimal digits. *)
Fixpoint pad (n : nat) (z : Z) : string :=
  match n with
  | O => ""
  | S n' => pad n' (z / 10) +:+ String (ascii_of_nat (48 + Z.to_nat (z mod 10))) ""
  end.

(** [Date.prototype.toISOString] of the time value [t]. *)
Definition Date_toISOString (t : Z) : string :=
  let day := t / 86400000 in
  let ms := t mod 86400000 in
  let '(y, m, d) := civil_from_days day in
  let year :=
    if (0 <=? y) && (y <=? 9999) then pad 4 y
    else (if y <? 0 then "-" else "+") +:+ pad 6 (Z.abs y) in
  year +:+ "-" +:+ pad 2 m +:+ "-" +:+ pad 2 d +:+ "T"
  +:+ pad 2 (ms / 3600000) +:+ ":" +:+ pad 2 (ms / 60000 mod 60) +:+ ":"
  +:+ pad 2 (ms / 1000 mod 60) +:+ "." +:+ pad 3 (ms mod 1000) +:+ "Z".

(** [Number.prototype.toString]: exact on the integers below 10^21; other
    numbers are printed as a quotient, which is not what an engine prints. *)
Definition Number_toString (n : number) : string :=
  match n with
  | Infinite false => "Infinity"
  | Infinite true => "-Infinity"
  | Finite q =>
      if (Z.pos (Qden q) =? 1) then pretty (Qnum q)
      else pretty (Qnum q) +:+ "/" +:+ pretty (Z.pos (Qden q))
  end.

Definition engine : Platform :=
  {| JS.Date_parse := Date_parse;
     JS.Number_toString := Number_toString;
     JS.Date_toISOString := Date_toISOString |}.

End Reference.

Import Session Auth Dal Gatekeeper.

(** ** Sample data *)

Module Samples.

(** 2026-01-01T00:00:00.000Z and 2026-01-08T00:00:00.000Z, in milliseconds. *)
Definition new_year : Z := 1767225600000.
Definition a_week_later : Z := 1767830400000.

(** A jar that holds one session cookie with the given value. *)
Definition jar_with (t : text) : world :=
  {| cookies := {[ "session" :=
                   {| cookie_value := t; httpOnly := true; secure := false;
                      expires := a_week_later; sameSite := "lax"; cookie_path := "/" |} ]};
     log := [] |}.

Definition empty_jar : world := {| cookies := ∅; log := [] |}.

(** A request context at the instant [t], facing the network [net]. *)
Definition at_time (t : Z) (net : fetch_request → option response) : env :=
  {| now := t; production := false; network := net |}.

(** [{"userId":1,"email":"john@mail.com","role":"admin"}]: no [expiresAt]. *)
Definition token_without_expiry : text :=
  JSONText (JObj [("userId", int 1); ("email", JStr "john@mail.com"); ("role", JStr "admin")]).

(** [{"userId":1,"email":"john@mail.com","role":"admin","expiresAt":"not-a-date"}] *)
Definition token_with_bad_expiry : text :=
  JSONText (JObj [("userId", int 1); ("email", JStr "john@mail.com"); ("role", JStr "admin");
                  ("expiresAt", JStr "not-a-date")]).

(** [{"userId":1,"email":"admin@mail.com","role":"admin","expiresAt":0}]: the
    expiry is the number 0, the first instant of 1970. *)
Definition token_expired_at_zero : text :=
  JSONText (JObj [("userId", int 1); ("email", JStr "admin@mail.com"); ("role", JStr "admin");
                  ("expiresAt", int 0)]).

(** The record written for the mock user at [new_year]:
    [{"userId":1,"email":"john@mail.com","role":"customer","expiresAt":"2026-01-08T00:00:00.000Z"}] *)
Definition customer_record : list (string * json) :=
  [("userId", int 1); ("email", JStr "john@mail.com"); ("role", JStr "customer");
   ("expiresAt", JStr "2026-01-08T00:00:00.000Z")].

Definition admin_record : list (string * json) :=
  [("userId", int 2); ("email", JStr "admin@mail.com"); ("role", JStr "admin");
   ("expiresAt", JStr "2026-01-08T00:00:00.000Z")].

Definition good_form : FormData :=
  [("email", EntryString "john@mail.com"); ("password", EntryString "changeme")].

Definition wrong_form : FormData :=
  [("email", EntryString "wrong@example.com"); ("password", EntryString "wrongpassword")].

(** A request for [path] carrying the given cookies. *)
Definition request_for (path : string) (c : option text) : NextRequest :=
  {| pathname := path;
     request_cookies := match c with Some t => {[ "session" := t ]} | None => ∅ end |}.

End Samples.

(** ** src/app/lib/dal.ts, continued: getUser *)

Module DalUser.
Section WithPlatform.
Context `{Platform}.
Local Open Scope action_scope.

(** [getUser()]: [JNull] is the [null] it returns. The URL is built inside
    the [try] block. *)
Definition getUser : action json :=
  session <- verifySession ;;
  try_catch
    (id <- lift (template (userId session)) ;;
     response <- fetch
       {| url := PLATZI_API_URL +:+ "/users/" +:+ id;
          method := "GET";
          headers := [];
          body := None |} ;;
     if negb (ok response) then ret JNull
     else
       user <- response_json response ;;
       ret user)
    (fun error =>
       console_error error ;;;
       ret JNull).

End WithPlatform.
End DalUser.

(** ** The pages: src/app/page.tsx, dashboard/page.tsx, admin/page.tsx *)

Module Pages.

(** What a page hands to its markup. *)
Inductive HomeView := GoToLogin.

Record DashboardView := {
  user_card : option json;
  admin_link : bool
}.

Record AdminView := {
  current_user : jsval;
  current_role : jsval
}.

Section WithPlatform.
Context `{Platform}.
Local Open Scope action_scope.

(** [HomePage()] *)
Definition HomePage : action HomeView :=
  session <- getSession ;;
  (if ToBoolean (OptGet session "userId") then redirect "/dashboard" else ret tt) ;;;
  ret GoToLogin.

(** [DashboardPage()]: the card is rendered under [user &&], the link to
    the admin panel under [session.role === 'admin' &&]. *)
Definition DashboardPage : action DashboardView :=
  session <- verifySession ;;
  user <- DalUser.getUser ;;
  ret {| user_card := if ToBoolean (Some user) then Some user else None;
         admin_link := strict_eq_string (role session) "admin" |}.

(** [AdminPage()] *)
Definition AdminPage : action AdminView :=
  session <- requireRole ["admin"] ;;
  ret {| current_user := email session; current_role := role session |}.

End WithPlatform.
End Pages.

(** ** src/app/ui/login-form.tsx *)

Module LoginFormUi.

(** The texts the form shows for a state of [useActionState(login,
    undefined)]: each one is rendered under [value &&]. *)
Record view := {
  shown_email_error : option string;
  shown_password_error : option string;
  shown_message : option string;
  button_label : string;
  button_disabled : bool
}.

Definition shown (text : option string) : option string :=
  match text with
  | Some s => if (s =? "")%string then None else Some s
  | None => None
  end.

Definition LoginForm (state : option LoginFormState) (pending : bool) : view :=
  {| shown_email_error :=
       match state with Some (Errors e) => shown (email_error e) | _ => None end;
     shown_password_error :=
       match state with Some (Errors e) => shown (password_error e) | _ => None end;
     shown_message :=
       match state with Some (Message m) => shown (Some m) | _ => None end;
     button_label := if pending then "Logging in..." else "Login";
     button_disabled := pending |}.

End LoginFormUi.

(** ** The scalable gatekeeper of the README: proxy.ts with roleRoutes *)

Module ScalableProxy.

Definition protectedRoutes : list string :=
  ["/dashboard"; "/admin"; "/profile"; "/moderator"; "/editor"; "/settings"].
Definition publicRoutes : list string := ["/login"; "/"].

(** [roleRoutes]; [Object.entries] lists the keys in the order written. *)
Definition roleRoutes : list (string * list string) :=
  [("/admin", ["admin"]); ("/moderator", ["moderator"]); ("/editor", ["admin"; "editor"])].

Section WithPlatform.
Context `{Platform}.

(** The variable [session] after the [if (cookie)] block; here the test
    starts with [session &&]. *)
Definition session_of_cookie (now : Z) (cookie : option text) : json :=
  if cookie_missing cookie then JNull
  else
    match cookie with
    | None => JNull
    | Some c =>
        match
          cbind (JSON_parse c) (fun session =>
          if ToBoolean (Some session)
          then
            cbind (Get session "expiresAt") (fun expiresAt =>
            if ToBoolean expiresAt
            then cbind (Date_new expiresAt) (fun d =>
                 if Date_lt d (Some now) then Normal JNull else Normal session)
            else Normal session)
          else Normal session)
        with
        | Normal session => session
        | Throw _ => JNull
        end
    end.

(** The [for] loop over [Object.entries(roleRoutes)]: the redirect it
    returns, if any. *)
Fixpoint role_check (path : string) (session : json) (entries : list (string * list string))
  : option NextResponse :=
  match entries with
  | [] => None
  | (route, allowedRoles) :: rest =>
      if String.prefix route path
         && (negb (ToBoolean (OptGet session "role"))
             || negb (includes allowedRoles (OptGet session "role")))
      then Some (redirect_to {| url_pathname := "/dashboard"; searchParams := [] |})
      else role_check path session rest
  end.

(** [proxy(req)], run at the instant [now]. *)
Definition proxy (now : Z) (req : NextRequest) : NextResponse :=
  let path := pathname req in
  let isProtectedRoute := existsb (fun route => String.prefix route path) protectedRoutes in
  let isPublicRoute := existsb (String.eqb path) publicRoutes in
  let cookie := request_cookies req !! "session" in
  let session := session_of_cookie now cookie in
  if isProtectedRoute && negb (ToBoolean (OptGet session "userId"))
  then redirect_to {| url_pathname := "/login"; searchParams := [("redirect", path)] |}
  else if isPublicRoute && (path =? "/login")%string && ToBoolean (OptGet session "userId")
  then redirect_to {| url_pathname := "/dashboard"; searchParams := [] |}
  else match role_check path session roleRoutes with
       | Some response => response
       | None => next
       end.

End WithPlatform.
End ScalableProxy.

(** ** src/app/ui/counter.tsx *)

Module CounterUi.

(** The two pieces of state. [count] starts at 0 and moves by one, so it
    stays among the integers from -2^53 to 2^53, where adding or subtracting
    one is exact in double arithmetic except at the two ends: 2^53 + 1 and
    -2^53 - 1 round back to 2^53 and -2^53. *)
Record state := {
  count : Z;
  history : list Z
}.

Definition initial : state := {| count := 0; history := [] |}.

Definition limit : Z := 2 ^ 53.

Definition plus_one (c : Z) : Z := if c =? limit then c else c + 1.
Definition minus_one (c : Z) : Z := if c =? - limit then c else c - 1.

Definition increment (s : state) : state :=
  let newCount := plus_one (count s) in
  {| count := newCount; history := history s ++ [newCount] |}.

Definition decrement (s : state) : state :=
  let newCount := minus_one (count s) in
  {| count := newCount; history := history s ++ [newCount] |}.

Definition reset (s : state) : state := {| count := 0; history := [] |}.

(** The three buttons; each click is handled on the state of the latest
    render. *)
Inductive click := Increment | Decrement | Reset.

Definition handle (s : state) (c : click) : state :=
  match c with
  | Increment => increment s
  | Decrement => decrement s
  | Reset => reset s
  end.

Definition after (clicks : list click) : state := fold_left handle clicks initial.

(** What is rendered: the count, and the history list under
    [history.length > 0 &&]. *)
Record view := {
  shown_count : Z;
  shown_history : option (list Z)
}.

Definition Counter (s : state) : view :=
  {| shown_count := count s;
     shown_history := if (0 <? Z.of_nat (List.length (history s))) then Some (history s) else None |}.

End CounterUi.

(** * Properties *)

(** ** Vocabulary of the specification *)

Section Vocabulary.
Context `{Platform}.

(** The cookie value carried by the jar of [w], if any. *)
Definition session_cookie (w : world) : option text :=
  cookie_value <$> cookies w !! "session".

(** A token is well formed when it is the JSON text of an object that has
    the four fields of a session record, [expiresAt] being a string that
    parses as a timestamp. *)
Definition well_formed (t : text) : Prop :=
  ∃ props (id : number) (email role stamp : string) (instant : Z),
    t = JSONText (JObj props)
    ∧ lookup_prop "userId" props = Some (JNum id)
    ∧ lookup_prop "email" props = Some (JStr email)
    ∧ lookup_prop "role" props = Some (JStr role)
    ∧ lookup_prop "expiresAt" props = Some (JStr stamp)
    ∧ Date_parse stamp = Some instant.

(** A cookie that cannot be decoded at all: absent, not JSON (the empty
    string included), or the JSON text [null]. *)
Inductive undecodable : option text → Prop :=
| cookie_absent : undecodable None
| cookie_not_json raw : undecodable (Some (NotJSON raw))
| cookie_json_null : undecodable (Some (JSONText JNull)).

(** A cookie in which the gatekeeper finds no valid session at the instant
    [now]: it is undecodable, or its [expiresAt] is a truthy value (the
    gatekeeper tests [session.expiresAt && ...]) that lies strictly before
    [now]. *)
Inductive no_valid_session (now : Z) : option text → Prop :=
| nvs_undecodable c : undecodable c → no_valid_session now c
| nvs_expired v expiresAt instant :
    Get v "expiresAt" = Normal (Some expiresAt) →
    ToBoolean (Some expiresAt) = true →
    Date_new (Some expiresAt) = Normal (Some instant) →
    instant < now →
    no_valid_session now (Some (JSONText v)).

(** The two requests that [login] sends. *)
Definition login_request (email password : string) : fetch_request :=
  {| url := PLATZI_API_URL +:+ "/auth/login";
     method := "POST";
     headers := [("Content-Type", "application/json")];
     body := Some (JSON_stringify [("email", Some (JStr email));
                                   ("password", Some (JStr password))]) |}.

Definition profile_request (bearer : string) : fetch_request :=
  {| url := PLATZI_API_URL +:+ "/auth/profile";
     method := "GET";
     headers := [("Authorization", "Bearer " +:+ bearer)];
     body := None |}.

(** What [login] reads from the two responses: the access credential,
    printed into the header, and the three fields of the profile. *)
Definition bearer_of (r : response) : completion string :=
  cbind (JSON_parse (response_body r)) (fun authData =>
  cbind (Get authData "access_token") template).

Definition profile_of (r : response) : completion (jsval * jsval * jsval) :=
  cbind (JSON_parse (response_body r)) (fun user =>
  cbind (Get user "id") (fun id =>
  cbind (Get user "email") (fun email =>
  cbind (Get user "role") (fun role => Normal (id, email, role))))).

(** A form that passes the validation of [login]. *)
Definition validated (fd : FormData) (email password : string) : Prop :=
  formData_get fd "email" = Some (EntryString email)
  ∧ isValidEmail email = true
  ∧ formData_get fd "password" = Some (EntryString password)
  ∧ trims_to_empty password = false.

(** The ways in which the exchange with the identity provider fails: a
    call faults (the [fetch] rejects, or what came back cannot be read), or
    it returns a non-success response. *)
Inductive upstream_failure (e : env) (email password : string) : Prop :=
| exchange_faults :
    network e (login_request email password) = None →
    upstream_failure e email password
| exchange_refused r :
    network e (login_request email password) = Some r → ok r = false →
    upstream_failure e email password
| exchange_unreadable r x :
    network e (login_request email password) = Some r → ok r = true →
    bearer_of r = Throw x →
    upstream_failure e email password
| profile_faults r bearer :
    network e (login_request email password) = Some r → ok r = true →
    bearer_of r = Normal bearer →
    network e (profile_request bearer) = None →
    upstream_failure e email password
| profile_refused r bearer r' :
    network e (login_request email password) = Some r → ok r = true →
    bearer_of r = Normal bearer →
    network e (profile_request bearer) = Some r' → ok r' = false →
    upstream_failure e email password
| profile_unreadable r bearer r' x :
    network e (login_request email password) = Some r → ok r = true →
    bearer_of r = Normal bearer →
    network e (profile_request bearer) = Some r' → ok r' = true →
    profile_of r' = Throw x →
    upstream_failure e email password.

(** Both calls succeed, and the profile carries [id], [email], [role]. *)
Definition upstream_success (e : env) (email password : string) (id mail role : jsval) : Prop :=
  ∃ r bearer r',
    network e (login_request email password) = Some r ∧ ok r = true
    ∧ bearer_of r = Normal bearer
    ∧ network e (profile_request bearer) = Some r' ∧ ok r' = true
    ∧ profile_of r' = Normal (id, mail, role).

(** The cookie that [createSession] stores. *)
Definition session_cookie_for (e : env) (id mail role : jsval) : cookie :=
  {| cookie_value := JSON_stringify (SessionPayload id mail role (now e + seven_days));
     httpOnly := true;
     secure := production e;
     expires := now e + seven_days;
     sameSite := "lax";
     cookie_path := "/" |}.

Definition is_cookie_set (ev : event) : bool :=
  match ev with CookieSet _ _ => true | _ => false end.

(** The value [getSession] computes from the cookie, as a function. *)
Definition read_value (now : Z) (cookie : option text) : json :=
  match cookie with
  | None => JNull
  | Some c =>
      if text_nonempty c then
        match
          cbind (JSON_parse c) (fun session =>
          cbind (Get session "expiresAt") (fun expiresAt =>
          cbind (Date_new expiresAt) (fun d =>
          Normal (if Date_lt d (Some now) then JNull else session))))
        with
        | Normal v => v
        | Throw _ => JNull
        end
      else JNull
  end.

End Vocabulary.

(** ** Further vocabulary *)

Section MoreVocabulary.
Context `{Platform}.

(** The fields of a form that pass the two checks of [login]. *)
Definition email_accepted (v : option FormDataEntryValue) : bool :=
  match v with
  | Some (EntryString s) => isValidEmail s
  | _ => false
  end.

Definition password_accepted (v : option FormDataEntryValue) : bool :=
  match v with
  | Some (EntryString s) => negb (trims_to_empty s)
  | _ => false
  end.

Definition is_file (v : option FormDataEntryValue) : bool :=
  match v with
  | Some (EntryFile _) => true
  | _ => false
  end.

(** The request that [getUser] sends for the printed user id. *)
Definition user_request (id : string) : fetch_request :=
  {| url := PLATZI_API_URL +:+ "/users/" +:+ id;
     method := "GET";
     headers := [];
     body := None |}.

(** A value as it is read back after [JSON.stringify] and [JSON.parse]. *)
Definition stored (v : jsval) : jsval := JSON_normal <$> v.

(** The record that [createSession] serializes, as [JSON.parse] reads it
    back. *)
Definition stored_record (id mail role : jsval) (expiresAt : Z) : json :=
  JObj (stringify_props (SessionPayload id mail role expiresAt)).

Definition is_fetch (ev : event) : bool :=
  match ev with Fetched _ => true | _ => false end.

Definition is_redirect (ev : event) : bool :=
  match ev with Redirected _ => true | _ => false end.

(** The request of the gatekeeper that carries the cookie of the jar. *)
Definition request_with (path : string) (c : option text) : NextRequest :=
  {| pathname := path;
     request_cookies := match c with Some t => {[ "session" := t ]} | None => ∅ end |}.

End MoreVocabulary.

(** The clicks of the counter since the last reset, and their balance:
    increments minus decrements. *)
Definition since_reset (clicks : list CounterUi.click) : list CounterUi.click :=
  fold_left (fun acc c => match c with
                          | CounterUi.Reset => []
                          | _ => acc ++ [c]
                          end) clicks [].

Definition balance (clicks : list CounterUi.click) : Z :=
  fold_left (fun n c => match c with
                        | CounterUi.Increment => n + 1
                        | CounterUi.Decrement => n - 1
                        | CounterUi.Reset => 0
                        end) clicks 0.

(** ** Reading the session *)

Section Reading.
Context `{Platform}.

(** [getSession] returns normally, leaves the world as it is, and its
    value is [read_value] of the cookie. *)
Lemma getSession_read (e : env) (w : world) :
  getSession e w = (Normal (read_value (now e) (session_cookie w)), w).
Proof.
  unfold getSession, read_value, session_cookie, bind, cookies_get_value.
  destruct (cookie_value <$> cookies w !! "session") as [c|]; [|reflexivity].
  destruct (text_nonempty c); [|reflexivity].
  unfold try_catch, bind, lift, Date_now, ret; cbn.
  destruct (JSON_parse c) as [session|x]; cbn; [|reflexivity].
  destruct (Get session "expiresAt") as [expiresAt|x]; cbn; [|reflexivity].
  destruct (Date_new expiresAt) as [d|x]; cbn; [|reflexivity].
  destruct (Date_lt d (Some (now e))); reflexivity.
Qed.

(** What is read is [null] or the parsed token itself, nothing in between. *)
Lemma read_value_cases (now : Z) (c : option text) :
  read_value now c = JNull ∨ c = Some (JSONText (read_value now c)).
Proof.
  unfold read_value.
  destruct c as [[raw|v]|]; cbn; auto.
  - destruct (negb _); auto.
  - destruct (Get v "expiresAt") as [x|]; cbn; auto.
    destruct (Date_new x) as [d|]; cbn; auto.
    destruct (Date_lt d (Some now)); auto.
Qed.

Lemma read_value_undecodable (now : Z) (c : option text) :
  undecodable c → read_value now c = JNull.
Proof.
  intros [|raw|]; cbn; try reflexivity.
  destruct (negb _); reflexivity.
Qed.

Lemma session_of_cookie_undecodable (now : Z) (c : option text) :
  undecodable c → session_of_cookie now c = JNull.
Proof.
  intros [|raw|]; unfold session_of_cookie; cbn; try reflexivity.
  destruct (negb (negb _)); reflexivity.
Qed.

Lemma session_of_cookie_no_valid_session (now : Z) (c : option text) :
  no_valid_session now c → session_of_cookie now c = JNull.
Proof.
  intros [c' Hc | v x t Hget Htruthy Hdate Hlt].
  - by apply session_of_cookie_undecodable.
  - unfold session_of_cookie, cookie_missing, text_nonempty, JSON_parse, cbind.
    rewrite Hget, Htruthy, Hdate. unfold Date_lt.
    apply Z.ltb_lt in Hlt. by rewrite Hlt.
Qed.

End Reading.

Import Samples.

(** ** C1: malformed tokens *)

(** C1, as stated, fails: a token that lacks [expiresAt], and one whose
    [expiresAt] is not a timestamp, are not well formed, and yet
    [getSession] and the gatekeeper's decoding both return them as they
    are, a record without a usable expiry, instead of [null]. *)
Lemma C1_malformed_token_is_returned :
  ¬ well_formed (H := Reference.engine) token_without_expiry
  ∧ ¬ well_formed (H := Reference.engine) token_with_bad_expiry
  ∧ fst (getSession (H := Reference.engine)
           (at_time new_year Mocks.handlers) (jar_with token_without_expiry))
    = Normal (JObj [("userId", int 1); ("email", JStr "john@mail.com"); ("role", JStr "admin")])
  ∧ session_of_cookie (H := Reference.engine) new_year (Some token_without_expiry)
    = JObj [("userId", int 1); ("email", JStr "john@mail.com"); ("role", JStr "admin")]
  ∧ fst (getSession (H := Reference.engine)
           (at_time new_year Mocks.handlers) (jar_with token_with_bad_expiry))
    ≠ Normal JNull
  ∧ session_of_cookie (H := Reference.engine) new_year (Some token_with_bad_expiry) ≠ JNull.
Proof.
  repeat split.
  - intros (props & id & em & ro & st & t & Heq & _ & _ & _ & Hexp & _).
    injection Heq as <-. discriminate Hexp.
  - intros (props & id & em & ro & st & t & Heq & _ & _ & _ & Hexp & Hparse).
    injection Heq as <-. injection Hexp as <-. discriminate Hparse.
  - vm_compute. discriminate.
  - vm_compute. discriminate.
Qed.

Section C1.
Context `{Platform}.

(** C1, amended: reading the session never throws and leaves the world
    untouched; what it returns is [null] or the parsed token, unchanged;
    and for every cookie that is absent, empty, not JSON, or the JSON text
    [null], both [getSession] and the gatekeeper's decoding give [null]. *)
Theorem C1_undecodable_cookie_reads_as_no_session (e : env) (w : world) :
  (∃ v, getSession e w = (Normal v, w)
        ∧ (v = JNull ∨ session_cookie w = Some (JSONText v)))
  ∧ (undecodable (session_cookie w) →
     getSession e w = (Normal JNull, w)
     ∧ session_of_cookie (now e) (session_cookie w) = JNull).
Proof.
  split.
  - exists (read_value (now e) (session_cookie w)). split.
    + apply getSession_read.
    + apply read_value_cases.
  - intros Hbad. split.
    + rewrite getSession_read. by rewrite read_value_undecodable.
    + by apply session_of_cookie_undecodable.
Qed.

End C1.

Lemma C1_undecodable_cookie_witness :
  getSession (H := Reference.engine) (at_time new_year Mocks.handlers) (jar_with (NotJSON "{oops"))
  = (Normal JNull, jar_with (NotJSON "{oops"))
  ∧ session_of_cookie (H := Reference.engine) new_year (Some (NotJSON "{oops")) = JNull.
Proof.
  apply (C1_undecodable_cookie_reads_as_no_session (H := Reference.engine)
           (at_time new_year Mocks.handlers) (jar_with (NotJSON "{oops"))).
  unfold session_cookie, jar_with; cbn [cookies].
  rewrite lookup_singleton_eq. constructor.
Defined.

(** ** C2: the instant of expiry *)

(** C2, as stated, fails at the boundary: a record read at exactly
    [now = expiresAt] does not satisfy [now < expiresAt], and yet
    [getSession] returns it and the gatekeeper keeps it. *)
Lemma C2_valid_at_the_instant_of_expiry :
  Reference.Date_parse "2026-01-08T00:00:00.000Z" = Some a_week_later
  ∧ ¬ (a_week_later < a_week_later)
  ∧ fst (getSession (H := Reference.engine)
           (at_time a_week_later Mocks.handlers) (jar_with (JSONText (JObj customer_record))))
    = Normal (JObj customer_record)
  ∧ session_of_cookie (H := Reference.engine) a_week_later
      (Some (JSONText (JObj customer_record)))
    = JObj customer_record.
Proof.
  split; [reflexivity|]. split; [lia|]. split; vm_compute; reflexivity.
Qed.

Section C2.
Context `{Platform}.

Lemma read_value_timestamp (now instant : Z) (props : list (string * json)) (stamp : string) :
  lookup_prop "expiresAt" props = Some (JStr stamp) →
  Date_parse stamp = Some instant →
  read_value now (Some (JSONText (JObj props)))
  = if instant <? now then JNull else JObj props.
Proof.
  intros Hget Hparse. unfold read_value, text_nonempty, JSON_parse, cbind, Get.
  rewrite Hget. unfold Date_new. rewrite Hparse. reflexivity.
Qed.

Lemma session_of_cookie_timestamp (now instant : Z) (props : list (string * json))
    (stamp : string) :
  lookup_prop "expiresAt" props = Some (JStr stamp) →
  stamp ≠ "" →
  Date_parse stamp = Some instant →
  session_of_cookie now (Some (JSONText (JObj props)))
  = if instant <? now then JNull else JObj props.
Proof.
  intros Hget Hne Hparse.
  unfold session_of_cookie, cookie_missing, text_nonempty, JSON_parse, cbind, Get.
  rewrite Hget. unfold ToBoolean.
  apply String.eqb_neq in Hne. rewrite Hne. unfold Date_new. rewrite Hparse.
  unfold Date_lt. destruct (instant <? now); reflexivity.
Qed.

(** C2, amended: for a decoded record whose [expiresAt] is the timestamp
    [instant], the record is valid if and only if [now <= instant]. It is
    dropped only when [instant < now], strictly: read at exactly
    [now = instant] the record is still returned, by [getSession] and by
    the gatekeeper alike. *)
Theorem C2_record_valid_iff_not_past_expiry (e : env) (w : world)
    (props : list (string * json)) (stamp : string) (instant : Z) :
  session_cookie w = Some (JSONText (JObj props)) →
  lookup_prop "expiresAt" props = Some (JStr stamp) →
  stamp ≠ "" →
  Date_parse stamp = Some instant →
  (now e <= instant ↔ getSession e w = (Normal (JObj props), w))
  ∧ (instant < now e ↔ getSession e w = (Normal JNull, w))
  ∧ (now e <= instant ↔ session_of_cookie (now e) (session_cookie w) = JObj props)
  ∧ (instant < now e ↔ session_of_cookie (now e) (session_cookie w) = JNull).
Proof.
  intros Hcookie Hget Hne Hparse.
  rewrite getSession_read, Hcookie.
  rewrite (read_value_timestamp _ instant _ stamp Hget Hparse).
  rewrite (session_of_cookie_timestamp _ instant _ stamp Hget Hne Hparse).
  destruct (Z.ltb_spec instant (now e)) as [Hlt|Hge].
  - repeat split; intros; try lia; try done.
  - repeat split; intros; try lia; try done.
Qed.

End C2.

Lemma C2_record_valid_witness :
  getSession (H := Reference.engine)
    (at_time a_week_later Mocks.handlers) (jar_with (JSONText (JObj customer_record)))
  = (Normal (JObj customer_record), jar_with (JSONText (JObj customer_record))).
Proof.
  apply (C2_record_valid_iff_not_past_expiry (H := Reference.engine)
           (at_time a_week_later Mocks.handlers) (jar_with (JSONText (JObj customer_record)))
           customer_record "2026-01-08T00:00:00.000Z" a_week_later).
  - reflexivity.
  - reflexivity.
  - discriminate.
  - reflexivity.
  - vm_compute. discriminate.
Defined.

(** ** Login *)

Section Login.
Context `{Platform}.

Lemma validated_email_not_empty (email : string) :
  isValidEmail email = true → (email =? "")%string = false.
Proof. destruct email; [discriminate | reflexivity]. Qed.

Lemma validated_password_not_empty (password : string) :
  trims_to_empty password = false → (password =? "")%string = false.
Proof. destruct password; [discriminate | reflexivity]. Qed.

Lemma bind_lift {A B} (c : completion A) (k : A → action B) (e : env) (w : world) :
  bind (lift c) k e w = match c with Normal a => k a e w | Throw x => (Throw x, w) end.
Proof. unfold bind, lift. destruct c; reflexivity. Qed.

(** On a validated form, [login] is its [try] block, written with the
    named requests and readings. *)
Lemma login_validated (st : option LoginFormState) (fd : FormData) (email password : string)
    (e : env) (w : world) :
  validated fd email password →
  login st fd e w =
  try_catch
    (bind (fetch (login_request email password)) (fun loginResponse =>
     if negb (ok loginResponse)
     then ret (Message "Invalid email or password. Please try again.")
     else
       bind (lift (bearer_of loginResponse)) (fun bearer =>
       bind (fetch (profile_request bearer)) (fun profileResponse =>
       if negb (ok profileResponse)
       then ret (Message "Failed to fetch user profile.")
       else
         bind (lift (profile_of profileResponse)) (fun '(id, mail, role) =>
         bind (createSession id mail role) (fun _ => redirect "/dashboard"))))))
    (fun error =>
       bind (console_error error) (fun _ =>
       ret (Message "An error occurred during login. Please try again."))) e w.
Proof.
  intros (Hemail & Hvalid & Hpw & Hblank).
  unfold login. rewrite Hemail, Hpw.
  cbn [entry_falsy entry_string entry_trims_to_empty].
  rewrite (validated_email_not_empty _ Hvalid), (validated_password_not_empty _ Hblank).
  rewrite Hvalid. rewrite bind_lift. rewrite Hblank.
  change (keys_length _ >? 0) with false. cbv iota.
  change {| url := PLATZI_API_URL +:+ "/auth/login"; method := "POST";
            headers := [("Content-Type", "application/json")];
            body := Some (JSON_stringify [("email", Some (JStr email));
                                          ("password", Some (JStr password))]) |}
    with (login_request email password).
  unfold try_catch, bind, fetch.
  destruct (network e (login_request email password)) as [r|]; [|reflexivity].
  destruct (negb (ok r)); [reflexivity|].
  unfold response_json, lift, bearer_of, cbind.
  destruct (JSON_parse (response_body r)) as [authData|]; [|reflexivity].
  destruct (Get authData "access_token") as [token|]; [|reflexivity].
  destruct (template token) as [bearer|]; [|reflexivity].
  change {| url := PLATZI_API_URL +:+ "/auth/profile"; method := "GET";
            headers := [("Authorization", "Bearer " +:+ bearer)]; body := None |}
    with (profile_request bearer).
  destruct (network e (profile_request bearer)) as [r'|]; [|reflexivity].
  destruct (negb (ok r')); [reflexivity|].
  unfold profile_of, cbind.
  destruct (JSON_parse (response_body r')) as [user|]; [|reflexivity].
  destruct (Get user "id") as [id|]; [|reflexivity].
  destruct (Get user "email") as [mail|]; [|reflexivity].
  destruct (Get user "role") as [role|]; reflexivity.
Qed.

Ltac run_login Hv :=
  rewrite (login_validated _ _ _ _ _ _ Hv);
  unfold try_catch, bind, fetch, lift, ret, console_error, emit, redirect, throw,
    createSession, cookies_set, Date_now, NODE_ENV_is_production.

Lemma login_exchange_refused st fd email password e w r :
  validated fd email password →
  network e (login_request email password) = Some r → ok r = false →
  login st fd e w =
  (Normal (Message "Invalid email or password. Please try again."),
   {| cookies := cookies w; log := log w ++ [Fetched (login_request email password)] |}).
Proof.
  intros Hv Hn Hok. run_login Hv. rewrite Hn, Hok. reflexivity.
Qed.

Lemma login_exchange_faults st fd email password e w :
  validated fd email password →
  network e (login_request email password) = None →
  login st fd e w =
  (Normal (Message "An error occurred during login. Please try again."),
   {| cookies := cookies w;
      log := log w ++ [Fetched (login_request email password); ConsoleError FetchFailed] |}).
Proof.
  intros Hv Hn. run_login Hv. rewrite Hn. cbn. by rewrite <- app_assoc.
Qed.

(** A successful exchange: the cookie is stored, [redirect] is called, its
    error is caught by the [catch] of [login], and [login] returns the
    message of the [catch] block. *)
Lemma login_success_run st fd email password e w id mail role :
  validated fd email password →
  upstream_success e email password id mail role →
  ∃ bearer,
  login st fd e w =
  (Normal (Message "An error occurred during login. Please try again."),
   {| cookies := <["session" := session_cookie_for e id mail role]> (cookies w);
      log := log w ++ [Fetched (login_request email password);
                       Fetched (profile_request bearer);
                       CookieSet "session" (session_cookie_for e id mail role);
                       Redirected "/dashboard";
                       ConsoleError (NEXT_REDIRECT "/dashboard")] |}).
Proof.
  intros Hv (r & bearer & r' & Hn & Hok & Hb & Hn' & Hok' & Hp).
  exists bearer. run_login Hv.
  rewrite Hn, Hok. cbn. rewrite Hb, Hn', Hok'. cbn. rewrite Hp. cbn.
  unfold session_cookie_for. by rewrite <- !app_assoc.
Qed.

(** A failed exchange: an error message, the jar untouched, no cookie
    written. *)
Lemma login_failure_run st fd email password e w :
  validated fd email password →
  upstream_failure e email password →
  ∃ m evs,
    login st fd e w = (Normal (Message m), {| cookies := cookies w; log := log w ++ evs |})
    ∧ Forall (λ ev, is_cookie_set ev = false) evs.
Proof.
  intros Hv Hfail.
  destruct Hfail as [Hn | r Hn Hok | r x Hn Hok Hb | r bearer Hn Hok Hb Hn'
                    | r bearer r' Hn Hok Hb Hn' Hok' | r bearer r' x Hn Hok Hb Hn' Hok' Hp].
  - rewrite (login_exchange_faults _ _ _ _ _ _ Hv Hn).
    eexists _, _. split; [reflexivity|]. repeat constructor.
  - rewrite (login_exchange_refused _ _ _ _ _ _ _ Hv Hn Hok).
    eexists _, _. split; [reflexivity|]. repeat constructor.
  - run_login Hv. rewrite Hn, Hok. cbn. rewrite Hb. cbn.
    eexists _, [_; _]. split; [by rewrite <- !app_assoc|]. repeat constructor.
  - run_login Hv. rewrite Hn, Hok. cbn. rewrite Hb, Hn'. cbn.
    eexists _, [_; _; _]. split; [by rewrite <- !app_assoc|]. repeat constructor.
  - run_login Hv. rewrite Hn, Hok. cbn. rewrite Hb, Hn', Hok'. cbn.
    eexists _, [_; _]. split; [by rewrite <- !app_assoc|]. repeat constructor.
  - run_login Hv. rewrite Hn, Hok. cbn. rewrite Hb, Hn', Hok'. cbn. rewrite Hp. cbn.
    eexists _, [_; _; _]. split; [by rewrite <- !app_assoc|]. repeat constructor.
Qed.

(** The exchange either fails or succeeds. *)
Lemma upstream_outcome (e : env) (email password : string) :
  upstream_failure e email password
  ∨ ∃ id mail role, upstream_success e email password id mail role.
Proof.
  destruct (network e (login_request email password)) as [r|] eqn:Hn;
    [|left; by apply exchange_faults].
  destruct (ok r) eqn:Hok; [|left; by eapply exchange_refused].
  destruct (bearer_of r) as [bearer|x] eqn:Hb; [|left; by eapply exchange_unreadable].
  destruct (network e (profile_request bearer)) as [r'|] eqn:Hn';
    [|left; by eapply profile_faults].
  destruct (ok r') eqn:Hok'; [|left; by eapply profile_refused].
  destruct (profile_of r') as [[[id mail] role]|x] eqn:Hp;
    [|left; by eapply profile_unreadable].
  right. exists id, mail, role, r, bearer, r'. done.
Qed.

Lemma upstream_exclusive (e : env) (email password : string) id mail role :
  upstream_failure e email password →
  upstream_success e email password id mail role → False.
Proof.
  intros Hf (r & bearer & r' & Hn & Hok & Hb & Hn' & Hok' & Hp).
  destruct Hf as [Hn0 | r0 Hn0 Hok0 | r0 x Hn0 Hok0 Hb0 | r0 b0 Hn0 Hok0 Hb0 Hn0'
                 | r0 b0 r0' Hn0 Hok0 Hb0 Hn0' Hok0' | r0 b0 r0' x Hn0 Hok0 Hb0 Hn0' Hok0' Hp0];
    rewrite Hn in Hn0; try discriminate; injection Hn0 as <-;
    try congruence;
    rewrite Hb in Hb0; injection Hb0 as <-;
    rewrite Hn' in Hn0'; try discriminate; injection Hn0' as <-; congruence.
Qed.

End Login.

(** ** C3: a failed exchange writes no session *)

Section C3.
Context `{Platform}.

Lemma getSession_same_jar (e : env) (w w' : world) :
  cookies w' = cookies w → fst (getSession e w') = fst (getSession e w).
Proof.
  intros Hjar. rewrite !getSession_read. unfold session_cookie. by rewrite Hjar.
Qed.

(** C3: on a validated form, when the credential exchange or the profile
    fetch returns a non-success response, or a step of the exchange
    faults, [login] returns an error message, the jar is as it was, no
    cookie is written, and reading the session gives what it gave before
    (so still "no session" if there was none). Whatever the outcome, a
    cookie is written at most once, and when it is, both upstream calls
    have succeeded and the write comes after them, followed only by the
    redirect. *)
Theorem C3_failed_exchange_writes_no_session (st : option LoginFormState) (fd : FormData)
    (email password : string) (e : env) (w : world) :
  validated fd email password →
  (upstream_failure e email password →
   ∃ m evs,
     login st fd e w = (Normal (Message m), {| cookies := cookies w; log := log w ++ evs |})
     ∧ Forall (λ ev, is_cookie_set ev = false) evs
     ∧ ∀ e', fst (getSession e' (snd (login st fd e w))) = fst (getSession e' w))
  ∧ (∀ evs, log (snd (login st fd e w)) = log w ++ evs →
     (List.length (List.filter is_cookie_set evs) ≤ 1)%nat
     ∧ ∀ name c, CookieSet name c ∈ evs →
       ∃ id mail role bearer,
         upstream_success e email password id mail role
         ∧ evs = [Fetched (login_request email password);
                  Fetched (profile_request bearer);
                  CookieSet name c;
                  Redirected "/dashboard";
                  ConsoleError (NEXT_REDIRECT "/dashboard")]).
Proof.
  intros Hv. split.
  - intros Hfail.
    destruct (login_failure_run st fd email password e w Hv Hfail) as (m & evs & Hrun & Hno).
    exists m, evs. rewrite Hrun. repeat split; [done|].
    intros e'. by apply getSession_same_jar.
  - intros evs Hlog.
    destruct (upstream_outcome e email password) as [Hfail | (id & mail & role & Hok)].
    + destruct (login_failure_run st fd email password e w Hv Hfail) as (m & evs0 & Hrun & Hno).
      rewrite Hrun in Hlog. cbn in Hlog. apply app_inv_head in Hlog. subst evs0.
      split.
      * clear -Hno. induction Hno as [|ev evs Hev _ IH]; cbn; [lia|].
        rewrite Hev. exact IH.
      * intros name c Hin. exfalso.
        rewrite Forall_forall in Hno. by specialize (Hno _ Hin).
    + destruct (login_success_run st fd email password e w id mail role Hv Hok)
        as (bearer & Hrun).
      rewrite Hrun in Hlog. cbn in Hlog. apply app_inv_head in Hlog. subst evs.
      split; [cbn; lia|].
      intros name c Hin. exists id, mail, role, bearer. split; [done|].
      rewrite !elem_of_cons in Hin.
      destruct Hin as [Hin|[Hin|[Hin|[Hin|[Hin|Hin]]]]]; try discriminate Hin.
      * by injection Hin as -> ->.
      * by apply elem_of_nil in Hin.
Qed.

End C3.

Lemma C3_failed_exchange_witness :
  validated wrong_form "wrong@example.com" "wrongpassword"
  ∧ upstream_failure (H := Reference.engine)
      (at_time new_year Mocks.handlers) "wrong@example.com" "wrongpassword"
  ∧ (∃ m evs,
      login (H := Reference.engine) None wrong_form (at_time new_year Mocks.handlers) empty_jar
      = (Normal (Message m), {| cookies := cookies empty_jar; log := log empty_jar ++ evs |})
      ∧ Forall (λ ev, is_cookie_set ev = false) evs
      ∧ ∀ e', fst (getSession (H := Reference.engine) e'
                     (snd (login (H := Reference.engine) None wrong_form
                             (at_time new_year Mocks.handlers) empty_jar)))
              = fst (getSession (H := Reference.engine) e' empty_jar))
  ∧ validated good_form "john@mail.com" "changeme"
  ∧ ∃ id mail role bearer,
      upstream_success (H := Reference.engine)
        (at_time new_year Mocks.handlers) "john@mail.com" "changeme" id mail role
      ∧ [Fetched (login_request "john@mail.com" "changeme");
         Fetched (profile_request "mock-access-token-123");
         CookieSet "session"
           (session_cookie_for (H := Reference.engine) (at_time new_year Mocks.handlers)
              (Some (int 1)) (Some (JStr "john@mail.com")) (Some (JStr "customer")));
         Redirected "/dashboard";
         ConsoleError (NEXT_REDIRECT "/dashboard")]
        = [Fetched (login_request "john@mail.com" "changeme");
           Fetched (profile_request bearer);
           CookieSet "session"
             (session_cookie_for (H := Reference.engine) (at_time new_year Mocks.handlers)
                (Some (int 1)) (Some (JStr "john@mail.com")) (Some (JStr "customer")));
           Redirected "/dashboard";
           ConsoleError (NEXT_REDIRECT "/dashboard")].
Proof.
  assert (Hv : validated wrong_form "wrong@example.com" "wrongpassword")
    by (repeat split; reflexivity).
  assert (Hf : upstream_failure (H := Reference.engine) (at_time new_year Mocks.handlers)
                 "wrong@example.com" "wrongpassword")
    by (apply (exchange_refused (H := Reference.engine) _ _ _
                 {| status := 401;
                    response_body := Mocks.message_body "Invalid credentials" |});
        reflexivity).
  assert (Hv' : validated good_form "john@mail.com" "changeme")
    by (repeat split; reflexivity).
  split; [exact Hv|]. split; [exact Hf|]. split.
  - exact (proj1 (C3_failed_exchange_writes_no_session (H := Reference.engine) None wrong_form
                    "wrong@example.com" "wrongpassword"
                    (at_time new_year Mocks.handlers) empty_jar Hv) Hf).
  - split; [exact Hv'|].
    apply (proj2 (C3_failed_exchange_writes_no_session (H := Reference.engine) None good_form
                    "john@mail.com" "changeme"
                    (at_time new_year Mocks.handlers) empty_jar Hv')).
    + reflexivity.
    + do 2 apply list_elem_of_further. apply list_elem_of_here.
Defined.

(** ** C4: a successful login *)

(** C4 at the credentials the mock provider accepts: the session cookie is
    written from the profile, with [expiresAt] seven days ahead, and
    [redirect("/dashboard")] is called; but the call sits inside the [try]
    block, its [NEXT_REDIRECT] error is caught by the [catch] of [login],
    and [login] returns the message of the [catch] block instead of
    letting the redirect through. *)
Theorem C4_successful_login_redirect_is_caught :
  let run := login (H := Reference.engine) None good_form
               (at_time new_year Mocks.handlers) empty_jar in
  fst run = Normal (Message "An error occurred during login. Please try again.")
  ∧ fst run ≠ Throw (NEXT_REDIRECT "/dashboard")
  ∧ cookies (snd run) !! "session"
    = Some {| cookie_value := JSONText (JObj customer_record);
              httpOnly := true; secure := false; expires := a_week_later;
              sameSite := "lax"; cookie_path := "/" |}
  ∧ log (snd run)
    = [Fetched (login_request "john@mail.com" "changeme");
       Fetched (profile_request "mock-access-token-123");
       CookieSet "session"
         {| cookie_value := JSONText (JObj customer_record);
            httpOnly := true; secure := false; expires := a_week_later;
            sameSite := "lax"; cookie_path := "/" |};
       Redirected "/dashboard";
       ConsoleError (NEXT_REDIRECT "/dashboard")].
Proof.
  cbv zeta. split; [vm_compute; reflexivity|]. split; [vm_compute; discriminate|].
  split; vm_compute; reflexivity.
Qed.

(** ** C5: refused credentials and an unreachable provider *)

(** C5, as stated, fails: the mock provider refuses the credentials with a
    401 response, the unreachable network makes the [fetch] reject, and
    [login] returns two different messages. *)
Lemma C5_refused_and_unreachable_differ :
  validated wrong_form "wrong@example.com" "wrongpassword"
  ∧ (∃ r, Mocks.handlers (login_request "wrong@example.com" "wrongpassword") = Some r
          ∧ ok r = false)
  ∧ Mocks.unreachable (login_request "wrong@example.com" "wrongpassword") = None
  ∧ fst (login (H := Reference.engine) None wrong_form
           (at_time new_year Mocks.handlers) empty_jar)
    = Normal (Message "Invalid email or password. Please try again.")
  ∧ fst (login (H := Reference.engine) None wrong_form
           (at_time new_year Mocks.unreachable) empty_jar)
    = Normal (Message "An error occurred during login. Please try again.").
Proof.
  split; [repeat split; reflexivity|].
  split; [eexists; split; reflexivity|].
  split; [reflexivity|].
  split; vm_compute; reflexivity.
Qed.

Section C5.
Context `{Platform}.

(** C5, amended: on a validated form, every non-success response of the
    credential exchange, whatever its status and body, yields the one
    message "Invalid email or password. Please try again."; a [fetch]
    that fails at the network level yields the other message "An error
    occurred during login. Please try again."; the caller can tell the
    two cases apart, and nothing more. *)
Theorem C5_messages_of_a_failed_exchange (st : option LoginFormState) (fd : FormData)
    (email password : string) (refusing down : env) (w : world) (r : response) :
  validated fd email password →
  network refusing (login_request email password) = Some r → ok r = false →
  network down (login_request email password) = None →
  fst (login st fd refusing w)
  = Normal (Message "Invalid email or password. Please try again.")
  ∧ fst (login st fd down w)
    = Normal (Message "An error occurred during login. Please try again.")
  ∧ fst (login st fd refusing w) ≠ fst (login st fd down w).
Proof.
  intros Hv Hr Hok Hd.
  rewrite (login_exchange_refused _ _ _ _ _ _ _ Hv Hr Hok).
  rewrite (login_exchange_faults _ _ _ _ _ _ Hv Hd).
  repeat split. cbn. discriminate.
Qed.

End C5.

Lemma C5_messages_witness :
  fst (login (H := Reference.engine) None wrong_form (at_time new_year Mocks.handlers) empty_jar)
  ≠ fst (login (H := Reference.engine) None wrong_form
           (at_time new_year Mocks.unreachable) empty_jar).
Proof.
  apply (C5_messages_of_a_failed_exchange (H := Reference.engine) None wrong_form
           "wrong@example.com" "wrongpassword"
           (at_time new_year Mocks.handlers) (at_time new_year Mocks.unreachable) empty_jar
           {| status := 401; response_body := Mocks.message_body "Invalid credentials" |}).
  - repeat split; reflexivity.
  - reflexivity.
  - reflexivity.
  - reflexivity.
Defined.

(** ** The gatekeeper *)

(** C6, as stated, fails for an expired cookie whose [expiresAt] is a falsy
    value: the token with [expiresAt] 0 expired in 1970, [getSession] reads
    it as no session, and yet the gatekeeper, which skips the expiry test
    on a falsy [expiresAt], lets the request through on the protected paths
    [/admin/users] and [/dashboard] instead of redirecting it to the login
    path. *)
Lemma C6_expired_cookie_with_falsy_expiresAt_passes :
  existsb (λ route, String.prefix route "/admin/users") protectedRoutes = true
  ∧ existsb (λ route, String.prefix route "/dashboard") protectedRoutes = true
  ∧ Get (JObj [("userId", int 1); ("email", JStr "admin@mail.com"); ("role", JStr "admin");
               ("expiresAt", int 0)]) "expiresAt" = Normal (Some (int 0))
  ∧ Date_new (H := Reference.engine) (Some (int 0)) = Normal (Some 0)
  ∧ 0 < new_year
  ∧ fst (getSession (H := Reference.engine)
           (at_time new_year Mocks.handlers) (jar_with token_expired_at_zero))
    = Normal JNull
  ∧ middleware (H := Reference.engine) new_year
      (request_for "/admin/users" (Some token_expired_at_zero))
    = next
  ∧ middleware (H := Reference.engine) new_year
      (request_for "/dashboard" (Some token_expired_at_zero))
    = next
  ∧ middleware (H := Reference.engine) new_year
      (request_for "/admin/users" (Some token_expired_at_zero))
    ≠ redirect_to {| url_pathname := "/login";
                     searchParams := [("redirect", "/admin/users")] |}.
Proof.
  repeat split; try reflexivity. vm_compute. discriminate.
Qed.

Section GatekeeperFacts.
Context `{Platform}.

Ltac split_on_chars :=
  repeat match goal with
         | |- context [ascii_dec ?a ?b] =>
             destruct (ascii_dec a b) as [?|?]; try discriminate; subst
         end.

Lemma under_dashboard (p : string) :
  String.prefix "/dashboard" p = true →
  String.prefix "/admin" p = false ∧ String.prefix "/login" p = false
  ∧ String.prefix "/" p = true ∧ (p =? "/login")%string = false.
Proof.
  destruct p as [|c1 [|c2 p]]; cbn -[ascii_dec]; split_on_chars; try discriminate; done.
Qed.

Lemma under_admin (p : string) :
  String.prefix "/admin" p = true →
  String.prefix "/dashboard" p = false ∧ String.prefix "/login" p = false
  ∧ String.prefix "/" p = true ∧ (p =? "/login")%string = false.
Proof.
  destruct p as [|c1 [|c2 p]]; cbn -[ascii_dec]; split_on_chars; try discriminate; done.
Qed.

Lemma under_login (p : string) :
  String.prefix "/login" p = true →
  String.prefix "/dashboard" p = false ∧ String.prefix "/admin" p = false
  ∧ String.prefix "/" p = true.
Proof.
  destruct p as [|c1 [|c2 p]]; cbn -[ascii_dec]; split_on_chars; try discriminate; done.
Qed.

(** C6, amended: a request to a path classified protected (one that starts
    with an entry of [protectedRoutes], role-restricted or not) whose
    session cookie is absent, undecodable, or expired with an [expiresAt]
    that is a truthy value strictly before [now], is redirected to the
    login path, with the requested path as the [redirect] parameter. *)
Theorem C6_protected_path_without_session_goes_to_login (now : Z) (req : NextRequest) :
  existsb (λ route, String.prefix route (pathname req)) protectedRoutes = true →
  no_valid_session now (request_cookies req !! "session") →
  middleware now req
  = redirect_to {| url_pathname := "/login";
                   searchParams := [("redirect", pathname req)] |}.
Proof.
  intros Hprotected Hnone. unfold middleware.
  rewrite Hprotected, (session_of_cookie_no_valid_session _ _ Hnone).
  reflexivity.
Qed.

(** C7: when the path matches more than one entry of the route table (a
    path under [/admin], [/dashboard] or [/login] also matches the entry
    [/]), the gatekeeper answers as the decision table does for the class
    of the longest matching prefix; a session counts as present when it
    carries a [userId]. *)
Theorem C7_longest_matching_prefix_decides (now : Z) (req : NextRequest) :
  let session := session_of_cookie now (request_cookies req !! "session") in
  (2 ≤ List.length (matching_entries (pathname req)))%nat →
  middleware now req
  = spec_decision (spec_classify (pathname req)) (pathname req)
      (ToBoolean (OptGet session "userId")) (OptGet session "role").
Proof.
  intros session. unfold middleware. fold session.
  generalize (ToBoolean (OptGet session "userId")) (OptGet session "role").
  intros has_session role.
  unfold spec_classify, matching_entries, spec_route_table, protectedRoutes, publicRoutes.
  cbn [List.filter existsb]. unfold matches. cbn [pathPrefix].
  destruct (String.prefix "/dashboard" (pathname req)) eqn:HD.
  { destruct (under_dashboard _ HD) as (-> & -> & -> & ->).
    intros _. cbn.
    by destruct (pathname req =? "/")%string, has_session. }
  destruct (String.prefix "/admin" (pathname req)) eqn:HA.
  { destruct (under_admin _ HA) as (_ & -> & -> & ->).
    intros _. cbn.
    by destruct (pathname req =? "/")%string, has_session,
         (strict_eq_string role "admin"). }
  destruct (String.prefix "/login" (pathname req)) eqn:HL.
  { destruct (under_login _ HL) as (_ & _ & ->).
    intros _. cbn.
    by destruct (pathname req =? "/login")%string, (pathname req =? "/")%string,
         has_session. }
  destruct (String.prefix "/" (pathname req)); cbn; lia.
Qed.

(** C10: a path that starts with neither [/dashboard] nor [/admin] and is
    not [/login] is let through, whatever the cookie says. *)
Theorem C10_unlisted_path_is_allowed (now : Z) (req : NextRequest) :
  String.prefix "/dashboard" (pathname req) = false →
  String.prefix "/admin" (pathname req) = false →
  pathname req ≠ "/login" →
  middleware now req = next.
Proof.
  intros HD HA HL. unfold middleware, protectedRoutes.
  cbn [existsb]. rewrite HD, HA.
  apply String.eqb_neq in HL. rewrite HL.
  cbn. by rewrite andb_false_r.
Qed.

End GatekeeperFacts.

Lemma C6_protected_path_witness :
  middleware (H := Reference.engine) (a_week_later + 1)
    (request_for "/admin/users" (Some (JSONText (JObj admin_record))))
  = redirect_to {| url_pathname := "/login";
                   searchParams := [("redirect", "/admin/users")] |}.
Proof.
  apply (C6_protected_path_without_session_goes_to_login (H := Reference.engine)
           (a_week_later + 1)
           (request_for "/admin/users" (Some (JSONText (JObj admin_record))))).
  - reflexivity.
  - cbn. rewrite lookup_singleton_eq.
    apply (nvs_expired (H := Reference.engine) (a_week_later + 1) (JObj admin_record)
             (JStr "2026-01-08T00:00:00.000Z") a_week_later).
    + reflexivity.
    + reflexivity.
    + reflexivity.
    + unfold a_week_later. lia.
Defined.

Lemma C7_longest_prefix_witness :
  matching_entries "/admin/users"
  = [ {| pathPrefix := "/admin"; class := ProtectedRoles ["admin"] |};
      {| pathPrefix := "/"; class := Public |} ]
  ∧ middleware (H := Reference.engine) new_year
      (request_for "/admin/users" (Some (JSONText (JObj customer_record))))
    = spec_decision (ProtectedRoles ["admin"]) "/admin/users" true (Some (JStr "customer")).
Proof.
  split; [reflexivity|].
  apply (C7_longest_matching_prefix_decides (H := Reference.engine) new_year
           (request_for "/admin/users" (Some (JSONText (JObj customer_record))))).
  cbn. lia.
Defined.

Lemma C10_unlisted_path_witness :
  middleware (H := Reference.engine) new_year
    (request_for "/settings" (Some token_with_bad_expiry))
  = next.
Proof.
  apply (C10_unlisted_path_is_allowed (H := Reference.engine) new_year
           (request_for "/settings" (Some token_with_bad_expiry))).
  - reflexivity.
  - reflexivity.
  - discriminate.
Defined.

(** ** The page-level guard *)

Section Guard.
Context `{Platform}.

Lemma Get_of_present (v : json) (key : string) :
  ToBoolean (OptGet v "userId") = true → Get v key = Normal (OptGet v key).
Proof. destruct v; cbn; try discriminate; reflexivity. Qed.


(** C9: [logout] deletes the session cookie and throws the redirect to
    [/login], from every state; reading the session afterwards gives
    [null]; [deleteSession] returns normally, deleting twice is deleting
    once, and deleting an absent cookie changes nothing in the jar. *)
Theorem C9_logout_always_clears_the_session (e : env) (w : world) :
  logout e w
  = (Throw (NEXT_REDIRECT "/login"),
     {| cookies := delete "session" (cookies w);
        log := log w ++ [CookieDelete "session"; Redirected "/login"] |})
  ∧ (∀ e', getSession e' (snd (logout e w)) = (Normal JNull, snd (logout e w)))
  ∧ fst (deleteSession e w) = Normal tt
  ∧ cookies (snd (deleteSession e (snd (deleteSession e w))))
    = cookies (snd (deleteSession e w))
  ∧ (cookies w !! "session" = None → cookies (snd (deleteSession e w)) = cookies w).
Proof.
  assert (Hrun : logout e w
                 = (Throw (NEXT_REDIRECT "/login"),
                    {| cookies := delete "session" (cookies w);
                       log := log w ++ [CookieDelete "session"; Redirected "/login"] |})).
  { unfold logout, deleteSession, cookies_delete, redirect, bind, emit, throw. cbn.
    by rewrite <- app_assoc. }
  split; [exact Hrun|]. split; [|split; [reflexivity|split]].
  - intros e'. rewrite Hrun, getSession_read. cbn [snd].
    unfold session_cookie. cbn [cookies]. by rewrite lookup_delete_eq.
  - cbn. apply delete_delete_eq.
  - intros Habsent. cbn. by apply delete_id.
Qed.

End Guard.


Lemma C9_logout_witness :
  cookies (snd (deleteSession (at_time new_year Mocks.handlers) empty_jar)) = cookies empty_jar.
Proof.
  apply (C9_logout_always_clears_the_session (H := Reference.engine)
           (at_time new_year Mocks.handlers) empty_jar).
  reflexivity.
Defined.

(** ** Agreement with the tests of the repository

    The expectations of [auth.test.ts] and [dal.test.ts], run on the model. *)

Example test_invalid_email :
  login (H := Reference.engine) None
    [("email", EntryString "invalid-email"); ("password", EntryString "password123")]
    (at_time new_year Mocks.handlers) empty_jar
  = (Normal (Errors {| email_error := Some "Please enter a valid email address.";
                       password_error := None |}),
     empty_jar).
Proof. reflexivity. Qed.

Example test_empty_password :
  login (H := Reference.engine) None
    [("email", EntryString "test@example.com"); ("password", EntryString "")]
    (at_time new_year Mocks.handlers) empty_jar
  = (Normal (Errors {| email_error := None;
                       password_error := Some "Password is required." |}),
     empty_jar).
Proof. reflexivity. Qed.

Example test_both_fields_invalid :
  fst (login (H := Reference.engine) None [("email", EntryString "not-an-email")]
         (at_time new_year Mocks.handlers) empty_jar)
  = Normal (Errors {| email_error := Some "Please enter a valid email address.";
                      password_error := Some "Password is required." |}).
Proof. reflexivity. Qed.

Example test_invalid_credentials :
  login (H := Reference.engine) None wrong_form (at_time new_year Mocks.handlers) empty_jar
  = (Normal (Message "Invalid email or password. Please try again."),
     {| cookies := ∅;
        log := [Fetched (login_request "wrong@example.com" "wrongpassword")] |}).
Proof. vm_compute. reflexivity. Qed.

Example test_api_error :
  fst (login (H := Reference.engine) None
         [("email", EntryString "test@example.com"); ("password", EntryString "password123")]
         (at_time new_year Mocks.unreachable) empty_jar)
  = Normal (Message "An error occurred during login. Please try again.").
Proof. vm_compute. reflexivity. Qed.

Example test_profile_fetch_failure :
  login (H := Reference.engine) None good_form
    (at_time new_year Mocks.handlers_without_profile) empty_jar
  = (Normal (Message "Failed to fetch user profile."),
     {| cookies := ∅;
        log := [Fetched (login_request "john@mail.com" "changeme");
                Fetched (profile_request "mock-access-token-123")] |}).
Proof. vm_compute. reflexivity. Qed.

Example test_password_as_file_throws :
  fst (login (H := Reference.engine) None
         [("email", EntryString "john@mail.com"); ("password", EntryFile "p.txt")]
         (at_time new_year Mocks.handlers) empty_jar)
  = Throw TypeError.
Proof. reflexivity. Qed.

Example test_verifySession_with_session :
  fst (verifySession (H := Reference.engine) (at_time new_year Mocks.handlers)
         (jar_with (JSONText (JObj customer_record))))
  = Normal {| isAuth := true;
              userId := Some (int 1);
              email := Some (JStr "john@mail.com");
              role := Some (JStr "customer") |}.
Proof. vm_compute. reflexivity. Qed.

Example test_verifySession_without_session :
  fst (verifySession (H := Reference.engine) (at_time new_year Mocks.handlers) empty_jar)
  = Throw (NEXT_REDIRECT "/login").
Proof. vm_compute. reflexivity. Qed.

Example test_expired_session_reads_as_none :
  fst (getSession (H := Reference.engine) (at_time (a_week_later + 1) Mocks.handlers)
         (jar_with (JSONText (JObj customer_record))))
  = Normal JNull.
Proof. vm_compute. reflexivity. Qed.

Example test_isValidEmail :
  isValidEmail "john@mail.com" = true
  ∧ isValidEmail "not-an-email" = false
  ∧ isValidEmail "a@b" = false
  ∧ isValidEmail "a b@c.d" = false
  ∧ isValidEmail "a@b@c.d" = false
  ∧ isValidEmail "a@b.c.d" = true.
Proof. repeat split; reflexivity. Qed.

Example test_iso_dates :
  Reference.Date_toISOString new_year = "2026-01-01T00:00:00.000Z"
  ∧ Reference.Date_toISOString (new_year + seven_days) = "2026-01-08T00:00:00.000Z"
  ∧ Reference.Date_parse "2026-01-08T00:00:00.000Z" = Some a_week_later
  ∧ Reference.Date_parse "1970-01-01T00:00:01.000Z" = Some 1000
  ∧ Reference.Date_parse "2000-02-29T23:59:59.999Z" = Some 951868799999
  ∧ Reference.Date_parse "2001-02-29T00:00:00.000Z" = None
  ∧ Reference.Date_parse "not-a-date" = None.
Proof. repeat split; reflexivity. Qed.

(** * Further properties *)

(** ** The session store: write, read, replace, delete *)

Section SessionStore.
Context `{Platform}.

Lemma createSession_run (id mail role : jsval) (e : env) (w : world) :
  createSession id mail role e w
  = (Normal tt,
     {| cookies := <["session" := session_cookie_for e id mail role]> (cookies w);
        log := log w ++ [CookieSet "session" (session_cookie_for e id mail role)] |}).
Proof. reflexivity. Qed.

(** What is read back from a stored record, field by field. *)
Lemma stored_record_fields (id mail role : jsval) (expiresAt : Z) :
  OptGet (stored_record id mail role expiresAt) "userId" = stored id
  ∧ OptGet (stored_record id mail role expiresAt) "email" = stored mail
  ∧ OptGet (stored_record id mail role expiresAt) "role" = stored role
  ∧ OptGet (stored_record id mail role expiresAt) "expiresAt"
    = Some (JStr (Date_toISOString expiresAt)).
Proof. destruct id, mail, role; repeat split; reflexivity. Qed.

(** X1. Round trip of the session store: what [createSession] writes at
    the instant [now e], [getSession] returns, field for field as JSON
    reads it back, at every instant up to and including seven days later,
    and no longer after that. The engine must read back the timestamp it
    printed. *)
Theorem session_written_is_read_for_seven_days (id mail role : jsval) (e e' : env) (w : world) :
  Date_toISOString (now e + seven_days) ≠ "" →
  Date_parse (Date_toISOString (now e + seven_days)) = Some (now e + seven_days) →
  let w' := snd (createSession id mail role e w) in
  (now e' <= now e + seven_days →
   getSession e' w' = (Normal (stored_record id mail role (now e + seven_days)), w')
   ∧ session_of_cookie (now e') (session_cookie w')
     = stored_record id mail role (now e + seven_days))
  ∧ (now e + seven_days < now e' →
     getSession e' w' = (Normal JNull, w')
     ∧ session_of_cookie (now e') (session_cookie w') = JNull).
Proof.
  intros Hne Hparse w'.
  assert (Hcookie : session_cookie w'
                    = Some (JSONText (stored_record id mail role (now e + seven_days)))).
  { unfold w'. rewrite createSession_run. unfold session_cookie. cbn [snd cookies].
    rewrite lookup_insert_eq. reflexivity. }
  assert (Hexp : lookup_prop "expiresAt"
                   (stringify_props (SessionPayload id mail role (now e + seven_days)))
                 = Some (JStr (Date_toISOString (now e + seven_days)))).
  { apply (stored_record_fields id mail role (now e + seven_days)). }
  rewrite getSession_read, Hcookie.
  unfold stored_record.
  rewrite (read_value_timestamp _ _ _ _ Hexp Hparse).
  rewrite (session_of_cookie_timestamp _ _ _ _ Hexp Hne Hparse).
  split; intros Hnow.
  - assert (Hlt : (now e + seven_days <? now e') = false) by (apply Z.ltb_ge; lia).
    by rewrite Hlt.
  - assert (Hlt : (now e + seven_days <? now e') = true) by (apply Z.ltb_lt; lia).
    by rewrite Hlt.
Qed.

(** X2. A new session replaces the old one whole: after two writes the
    jar holds the cookie of the second record and nothing of the first (it
    is the jar before the first write with the second cookie put in); what
    is read, up to seven days after the second write, is the second record;
    and deleting afterwards leaves no session to read. The engine must read
    back the timestamp it printed. *)
Theorem session_is_replaced_whole (id mail role id' mail' role' : jsval) (e e' e'' : env)
    (w : world) :
  Date_toISOString (now e' + seven_days) ≠ "" →
  Date_parse (Date_toISOString (now e' + seven_days)) = Some (now e' + seven_days) →
  now e'' <= now e' + seven_days →
  let w1 := snd (createSession id mail role e w) in
  let w2 := snd (createSession id' mail' role' e' w1) in
  cookies w2 = <["session" := session_cookie_for e' id' mail' role']> (cookies w)
  ∧ cookies w2 = cookies (snd (createSession id' mail' role' e' w))
  ∧ fst (getSession e'' w2) = Normal (stored_record id' mail' role' (now e' + seven_days))
  ∧ session_of_cookie (now e'') (session_cookie w2)
    = stored_record id' mail' role' (now e' + seven_days)
  ∧ fst (getSession e'' (snd (deleteSession e'' w2))) = Normal JNull.
Proof.
  intros Hne Hparse Hnow. cbn zeta. rewrite !createSession_run. cbn [snd cookies].
  assert (Hexp : lookup_prop "expiresAt"
                   (stringify_props (SessionPayload id' mail' role' (now e' + seven_days)))
                 = Some (JStr (Date_toISOString (now e' + seven_days)))).
  { apply (stored_record_fields id' mail' role' (now e' + seven_days)). }
  assert (Hlt : (now e' + seven_days <? now e'') = false) by (apply Z.ltb_ge; lia).
  split; [apply insert_insert_eq|]. split; [apply insert_insert_eq|].
  rewrite !getSession_read. unfold session_cookie. cbn [snd fst cookies].
  rewrite !lookup_insert_eq.
  cbn [fmap option_fmap option_map session_cookie_for cookie_value].
  unfold stored_record, JSON_stringify.
  rewrite (read_value_timestamp _ _ _ _ Hexp Hparse).
  rewrite (session_of_cookie_timestamp _ _ _ _ Hexp Hne Hparse).
  rewrite Hlt. split; [reflexivity|]. split; [reflexivity|].
  unfold deleteSession, cookies_delete. cbn [snd fst cookies].
  by rewrite lookup_delete_eq.
Qed.

End SessionStore.

Lemma session_written_is_read_witness :
  getSession (H := Reference.engine) (at_time a_week_later Mocks.handlers)
    (snd (createSession (H := Reference.engine)
            (Some (int 1)) (Some (JStr "john@mail.com")) (Some (JStr "customer"))
            (at_time new_year Mocks.handlers) empty_jar))
  = (Normal (JObj customer_record),
     snd (createSession (H := Reference.engine)
            (Some (int 1)) (Some (JStr "john@mail.com")) (Some (JStr "customer"))
            (at_time new_year Mocks.handlers) empty_jar)).
Proof.
  apply (session_written_is_read_for_seven_days (H := Reference.engine)
           (Some (int 1)) (Some (JStr "john@mail.com")) (Some (JStr "customer"))
           (at_time new_year Mocks.handlers) (at_time a_week_later Mocks.handlers) empty_jar).
  - discriminate.
  - reflexivity.
  - vm_compute. discriminate.
Defined.

Lemma session_is_replaced_witness :
  let w1 := snd (createSession (H := Reference.engine)
                   (Some (int 2)) (Some (JStr "admin@mail.com")) (Some (JStr "admin"))
                   (at_time a_week_later Mocks.handlers) empty_jar) in
  let w2 := snd (createSession (H := Reference.engine)
                   (Some (int 1)) (Some (JStr "john@mail.com")) (Some (JStr "customer"))
                   (at_time new_year Mocks.handlers) w1) in
  fst (getSession (H := Reference.engine) (at_time a_week_later Mocks.handlers) w2)
  = Normal (JObj customer_record).
Proof.
  apply (session_is_replaced_whole (H := Reference.engine)
           (Some (int 2)) (Some (JStr "admin@mail.com")) (Some (JStr "admin"))
           (Some (int 1)) (Some (JStr "john@mail.com")) (Some (JStr "customer"))
           (at_time a_week_later Mocks.handlers) (at_time new_year Mocks.handlers)
           (at_time a_week_later Mocks.handlers) empty_jar).
  - discriminate.
  - reflexivity.
  - vm_compute. discriminate.
Defined.

(** ** Login: validation, outcomes, and what it stores *)

Section LoginOutcomes.
Context `{Platform}.

Lemma email_check (v : option FormDataEntryValue) :
  entry_falsy v || negb (isValidEmail (entry_string v)) = negb (email_accepted v).
Proof.
  destruct v as [[s|f]|]; cbn [entry_falsy entry_string email_accepted]; try reflexivity.
  destruct s; reflexivity.
Qed.

Lemma password_check (v : option FormDataEntryValue) :
  is_file v = false →
  (if entry_falsy v then Normal true else entry_trims_to_empty v)
  = Normal (negb (password_accepted v)).
Proof.
  destruct v as [[s|f]|]; cbn; try discriminate; try reflexivity.
  intros _. destruct s; cbn; [reflexivity|]. by rewrite negb_involutive.
Qed.

Lemma login_file_run (st : option LoginFormState) (fd : FormData) (e : env) (w : world) :
  is_file (formData_get fd "password") = true →
  login st fd e w = (Throw TypeError, w).
Proof.
  intros Hfile. unfold login.
  destruct (formData_get fd "password") as [[s|f]|]; try discriminate Hfile.
  reflexivity.
Qed.

Lemma login_invalid_run (st : option LoginFormState) (fd : FormData) (e : env) (w : world) :
  is_file (formData_get fd "password") = false →
  email_accepted (formData_get fd "email")
  && password_accepted (formData_get fd "password") = false →
  login st fd e w
  = (Normal (Errors
       {| email_error :=
            if email_accepted (formData_get fd "email") then None
            else Some "Please enter a valid email address.";
          password_error :=
            if password_accepted (formData_get fd "password") then None
            else Some "Password is required." |}), w).
Proof.
  intros Hfile Hbad. unfold login. cbv zeta.
  rewrite email_check, bind_lift, (password_check _ Hfile).
  destruct (email_accepted (formData_get fd "email")),
    (password_accepted (formData_get fd "password")); try discriminate Hbad; reflexivity.
Qed.

Lemma accepted_is_validated (fd : FormData) :
  email_accepted (formData_get fd "email") = true →
  password_accepted (formData_get fd "password") = true →
  ∃ email password, validated fd email password.
Proof.
  unfold validated.
  destruct (formData_get fd "email") as [[email|f]|]; try discriminate.
  destruct (formData_get fd "password") as [[password|f]|]; try discriminate.
  cbn. intros Hemail Hpw. exists email, password.
  repeat split; [done|]. by apply negb_true_iff.
Qed.

(** X3. Validation: when the email is not a well-shaped address or the
    password is missing or blank, [login] returns the field errors, both
    of them when both checks fail, and does nothing else: the provider is
    not contacted and the jar is not touched. *)
Theorem login_rejects_invalid_form (st : option LoginFormState) (fd : FormData)
    (e : env) (w : world) :
  is_file (formData_get fd "password") = false →
  email_accepted (formData_get fd "email")
  && password_accepted (formData_get fd "password") = false →
  ∃ errors,
    login st fd e w = (Normal (Errors errors), w)
    ∧ (email_error errors = None ↔ email_accepted (formData_get fd "email") = true)
    ∧ (password_error errors = None ↔ password_accepted (formData_get fd "password") = true).
Proof.
  intros Hfile Hbad. eexists. split; [by apply login_invalid_run|].
  cbn. destruct (email_accepted _), (password_accepted _); done.
Qed.

(** Every run of [login], sorted by what the form was. *)
Lemma login_runs (st : option LoginFormState) (fd : FormData) (e : env) (w : world) :
  (is_file (formData_get fd "password") = true ∧ login st fd e w = (Throw TypeError, w))
  ∨ (is_file (formData_get fd "password") = false
     ∧ ∃ errors, login st fd e w = (Normal (Errors errors), w)
                 ∧ (email_error errors = Some "Please enter a valid email address."
                    ∨ password_error errors = Some "Password is required."))
  ∨ (∃ email password m evs,
       validated fd email password
       ∧ upstream_failure e email password
       ∧ login st fd e w
         = (Normal (Message m), {| cookies := cookies w; log := log w ++ evs |})
       ∧ Forall (λ ev, is_cookie_set ev = false) evs
       ∧ m ∈ ["Invalid email or password. Please try again.";
              "Failed to fetch user profile.";
              "An error occurred during login. Please try again."])
  ∨ (∃ email password id mail role bearer,
       validated fd email password
       ∧ upstream_success e email password id mail role
       ∧ login st fd e w
         = (Normal (Message "An error occurred during login. Please try again."),
            {| cookies := <["session" := session_cookie_for e id mail role]> (cookies w);
               log := log w ++ [Fetched (login_request email password);
                                Fetched (profile_request bearer);
                                CookieSet "session" (session_cookie_for e id mail role);
                                Redirected "/dashboard";
                                ConsoleError (NEXT_REDIRECT "/dashboard")] |})).
Proof.
  destruct (is_file (formData_get fd "password")) eqn:Hfile.
  { left. split; [done|]. by apply login_file_run. }
  right.
  destruct (email_accepted (formData_get fd "email")
            && password_accepted (formData_get fd "password")) eqn:Hok.
  2:{ left. split; [done|]. eexists. split; [by apply login_invalid_run|].
      cbn. destruct (email_accepted _), (password_accepted _); try discriminate Hok; auto. }
  right. apply andb_true_iff in Hok as [Hemail Hpw].
  destruct (accepted_is_validated fd Hemail Hpw) as (email & password & Hv).
  destruct (upstream_outcome e email password) as [Hfail | (id & mail & role & Hsucc)].
  - left. exists email, password.
    destruct Hfail as [Hn | r Hn Hok | r x Hn Hok Hb | r bearer Hn Hok Hb Hn'
                      | r bearer r' Hn Hok Hb Hn' Hok' | r bearer r' x Hn Hok Hb Hn' Hok' Hp].
    + eexists _, _. split; [done|]. split; [by apply exchange_faults|].
      split; [by apply login_exchange_faults|]. split; [repeat constructor|].
      set_solver.
    + eexists _, _. split; [done|]. split; [by eapply exchange_refused|].
      split; [by eapply login_exchange_refused|]. split; [repeat constructor|].
      set_solver.
    + eexists _, _. split; [done|]. split; [by eapply exchange_unreadable|].
      split.
      { rewrite (login_validated _ _ _ _ _ _ Hv).
        unfold try_catch, bind, fetch, lift, ret, console_error, emit.
        rewrite Hn, Hok. cbn. rewrite Hb. cbn. rewrite <- !app_assoc. reflexivity. }
      split; [repeat constructor|set_solver].
    + eexists _, _. split; [done|]. split; [by eapply profile_faults|].
      split.
      { rewrite (login_validated _ _ _ _ _ _ Hv).
        unfold try_catch, bind, fetch, lift, ret, console_error, emit.
        rewrite Hn, Hok. cbn. rewrite Hb, Hn'. cbn. rewrite <- !app_assoc. reflexivity. }
      split; [repeat constructor|set_solver].
    + eexists _, _. split; [done|]. split; [by eapply profile_refused|].
      split.
      { rewrite (login_validated _ _ _ _ _ _ Hv).
        unfold try_catch, bind, fetch, lift, ret, console_error, emit.
        rewrite Hn, Hok. cbn. rewrite Hb, Hn', Hok'. cbn. rewrite <- !app_assoc. reflexivity. }
      split; [repeat constructor|set_solver].
    + eexists _, _. split; [done|]. split; [by eapply profile_unreadable|].
      split.
      { rewrite (login_validated _ _ _ _ _ _ Hv).
        unfold try_catch, bind, fetch, lift, ret, console_error, emit.
        rewrite Hn, Hok. cbn. rewrite Hb, Hn', Hok'. cbn. rewrite Hp. cbn. rewrite <- !app_assoc. reflexivity. }
      split; [repeat constructor|set_solver].
  - right. exists email, password, id, mail, role.
    destruct (login_success_run st fd email password e w id mail role Hv Hsucc)
      as (bearer & Hrun).
    exists bearer. done.
Qed.

End LoginOutcomes.

Section LoginProperties.
Context `{Platform}.

(** X4. [login] throws exactly when the password field is an uploaded
    file: then it throws a [TypeError] before doing anything. In every
    other case it returns a state; in particular no redirect ever leaves
    [login]. *)
Theorem login_throws_only_on_file_password (st : option LoginFormState) (fd : FormData)
    (e : env) (w : world) :
  (is_file (formData_get fd "password") = true →
   login st fd e w = (Throw TypeError, w))
  ∧ (is_file (formData_get fd "password") = false →
     ∃ state, fst (login st fd e w) = Normal state).
Proof.
  split.
  - apply login_file_run.
  - intros Hfile.
    destruct (login_runs st fd e w)
      as [[Hf _] | [(_ & errors & Hrun & _)
         | [(email & password & m & evs & _ & _ & Hrun & _)
           | (email & password & id & mail & role & bearer & _ & _ & Hrun)]]].
    + congruence.
    + rewrite Hrun. by eexists.
    + rewrite Hrun. by eexists.
    + rewrite Hrun. by eexists.
Qed.

(** X5. Whatever state [login] returns, the form has something to show
    for it: either the message and no field error, or no message and at
    least one field error. *)
Theorem login_form_always_shows_feedback (st : option LoginFormState) (fd : FormData)
    (e : env) (w : world) (state : LoginFormState) :
  fst (login st fd e w) = Normal state →
  let v := LoginFormUi.LoginForm (Some state) false in
  (LoginFormUi.shown_message v ≠ None
   ∧ LoginFormUi.shown_email_error v = None
   ∧ LoginFormUi.shown_password_error v = None)
  ∨ (LoginFormUi.shown_message v = None
     ∧ (LoginFormUi.shown_email_error v ≠ None
        ∨ LoginFormUi.shown_password_error v ≠ None)).
Proof.
  intros Hstate.
  destruct (login_runs st fd e w)
    as [[_ Hrun] | [(_ & errors & Hrun & Herr)
       | [(email & password & m & evs & _ & _ & Hrun & _ & Hm)
         | (email & password & id & mail & role & bearer & _ & _ & Hrun)]]];
    rewrite Hrun in Hstate; cbn in Hstate; try discriminate Hstate;
    injection Hstate as <-.
  - right. split; [reflexivity|]. cbn.
    destruct Herr as [-> | ->]; [left|right]; discriminate.
  - left. cbn.
    rewrite !elem_of_cons in Hm.
    destruct Hm as [-> | [-> | [-> | Hm]]]; [| | |by apply elem_of_nil in Hm];
      repeat split; discriminate.
  - left. cbn. repeat split; discriminate.
Qed.

Lemma session_record_keys (id mail role : jsval) (t : Z) (k : string) :
  has_own k (stringify_props (SessionPayload id mail role t)) = true →
  k ∈ ["userId"; "email"; "role"; "expiresAt"].
Proof.
  unfold has_own.
  destruct id, mail, role; cbn [SessionPayload stringify_props lookup_prop];
    repeat match goal with
           | |- context [(?a =? k)%string] =>
               destruct (String.eqb_spec a k) as [<-|_]; [intros _; set_solver|]
           end; discriminate.
Qed.

(** X6. What [login] stores: on any form and any network, it writes no
    cookie but [session] and leaves the other cookies of the jar as they
    are. When it writes that one, both upstream calls have succeeded and
    the cookie is the one [createSession] makes from the id, email and role
    of the profile answer and the clock: its value is the JSON text of
    those three fields and of [expiresAt], seven days after the login, and
    of nothing else, so nothing of the form and nothing of the answer to
    the credential exchange goes into it; it is HTTP-only, same-site lax
    and bound to the root path. *)
Theorem login_stores_only_the_session_record (st : option LoginFormState) (fd : FormData)
    (e : env) (w : world) :
  let w' := snd (login st fd e w) in
  (∀ name, name ≠ "session" → cookies w' !! name = cookies w !! name)
  ∧ ∃ evs, log w' = log w ++ evs
    ∧ ∀ name c, CookieSet name c ∈ evs →
        name = "session"
        ∧ cookies w' !! "session" = Some c
        ∧ (∃ email password id mail role,
             validated fd email password
             ∧ upstream_success e email password id mail role
             ∧ c = session_cookie_for e id mail role
             ∧ cookie_value c
               = JSON_stringify [("userId", id); ("email", mail); ("role", role);
                                 ("expiresAt",
                                  Some (JStr (Date_toISOString (now e + seven_days))))])
        ∧ httpOnly c = true ∧ sameSite c = "lax" ∧ cookie_path c = "/"
        ∧ secure c = production e ∧ expires c = now e + seven_days
        ∧ ∃ props, cookie_value c = JSONText (JObj props)
                   ∧ ∀ k, has_own k props = true →
                          k ∈ ["userId"; "email"; "role"; "expiresAt"].
Proof.
  cbn zeta.
  destruct (login_runs st fd e w)
    as [[_ Hrun] | [(_ & errors & Hrun & _)
       | [(email & password & m & evs & _ & _ & Hrun & Hno & _)
         | (email & password & id & mail & role & bearer & Hv & Hsucc & Hrun)]]];
    rewrite Hrun; cbn [snd cookies log].
  - split; [done|]. exists []. split; [by rewrite app_nil_r|].
    intros name c Hin. by apply elem_of_nil in Hin.
  - split; [done|]. exists []. split; [by rewrite app_nil_r|].
    intros name c Hin. by apply elem_of_nil in Hin.
  - split; [done|]. exists evs. split; [done|].
    intros name c Hin. exfalso.
    rewrite Forall_forall in Hno. by specialize (Hno _ Hin).
  - split; [intros name Hne; by rewrite lookup_insert_ne|].
    eexists. split; [reflexivity|].
    intros name c Hin. rewrite !elem_of_cons in Hin.
    destruct Hin as [Hin|[Hin|[Hin|[Hin|[Hin|Hin]]]]]; try discriminate Hin;
      [|by apply elem_of_nil in Hin].
    injection Hin as -> ->.
    split; [done|]. split; [by rewrite lookup_insert_eq|].
    split; [by exists email, password, id, mail, role|].
    repeat (split; [reflexivity|]).
    eexists. split; [reflexivity|]. apply session_record_keys.
Qed.

Lemma verifySession_run (e : env) (w : world) (session : json) :
  fst (getSession e w) = Normal session →
  ToBoolean (OptGet session "userId") = true →
  verifySession e w
  = (Normal {| isAuth := true;
               userId := OptGet session "userId";
               email := OptGet session "email";
               role := OptGet session "role" |}, w).
Proof.
  rewrite getSession_read. cbn [fst]. intros [= Hsession] Hid.
  unfold verifySession, bind. rewrite getSession_read, Hsession, Hid. cbn.
  by rewrite !(Get_of_present _ _ Hid).
Qed.

Lemma verifySession_redirects (e : env) (w : world) (session : json) :
  fst (getSession e w) = Normal session →
  ToBoolean (OptGet session "userId") = false →
  verifySession e w
  = (Throw (NEXT_REDIRECT "/login"),
     {| cookies := cookies w; log := log w ++ [Redirected "/login"] |}).
Proof.
  rewrite getSession_read. cbn [fst]. intros [= Hsession] Hid.
  unfold verifySession, bind. rewrite getSession_read, Hsession, Hid. reflexivity.
Qed.

(** X7. Login, then the guard: after a login in which both upstream calls
    succeed and the profile carries a user id, [verifySession] admits the
    user at any instant of the following seven days and returns the id,
    email and role of the profile (as JSON reads them back), nothing of
    the form. The engine must read back the timestamp it printed. *)
Theorem login_then_verifySession (st : option LoginFormState) (fd : FormData)
    (email password : string) (id mail role : jsval) (e e' : env) (w : world) :
  validated fd email password →
  upstream_success e email password id mail role →
  Date_parse (Date_toISOString (now e + seven_days)) = Some (now e + seven_days) →
  ToBoolean (stored id) = true →
  now e' <= now e + seven_days →
  fst (verifySession e' (snd (login st fd e w)))
  = Normal {| isAuth := true; userId := stored id; email := stored mail;
              role := stored role |}.
Proof.
  intros Hv Hsucc Hparse Hid Hnow.
  destruct (login_success_run st fd email password e w id mail role Hv Hsucc)
    as (bearer & Hrun).
  rewrite Hrun. cbn [snd].
  set (w' := {| cookies := _; log := _ |}).
  assert (Hread : fst (getSession e' w')
                  = Normal (stored_record id mail role (now e + seven_days))).
  { rewrite getSession_read. unfold session_cookie, w'. cbn [fst cookies].
    rewrite lookup_insert_eq. cbn [fmap option_fmap option_map session_cookie_for cookie_value].
    unfold JSON_stringify.
    rewrite (read_value_timestamp _ (now e + seven_days) _
               (Date_toISOString (now e + seven_days))).
    - assert (Hlt : (now e + seven_days <? now e') = false) by (apply Z.ltb_ge; lia).
      by rewrite Hlt.
    - apply (stored_record_fields id mail role (now e + seven_days)).
    - exact Hparse. }
  destruct (stored_record_fields id mail role (now e + seven_days))
    as (Hfid & Hfmail & Hfrole & _).
  rewrite (verifySession_run e' w' _ Hread); rewrite Hfid; [|exact Hid].
  cbn [fst]. by rewrite Hfmail, Hfrole.
Qed.

End LoginProperties.

Lemma login_throws_only_on_file_password_witness :
  login (H := Reference.engine) None
    [("email", EntryString "john@mail.com"); ("password", EntryFile "p.txt")]
    (at_time new_year Mocks.handlers) empty_jar
  = (Throw TypeError, empty_jar)
  ∧ ∃ state, fst (login (H := Reference.engine) None good_form
                    (at_time new_year Mocks.handlers) empty_jar) = Normal state.
Proof.
  split.
  - apply (login_throws_only_on_file_password (H := Reference.engine) None
             [("email", EntryString "john@mail.com"); ("password", EntryFile "p.txt")]
             (at_time new_year Mocks.handlers) empty_jar).
    reflexivity.
  - apply (login_throws_only_on_file_password (H := Reference.engine) None good_form
             (at_time new_year Mocks.handlers) empty_jar).
    reflexivity.
Defined.

Lemma login_rejects_invalid_form_witness :
  ∃ errors,
    login (H := Reference.engine) None [("email", EntryString "not-an-email")]
      (at_time new_year Mocks.handlers) empty_jar
    = (Normal (Errors errors), empty_jar)
    ∧ (email_error errors = None
       ↔ email_accepted (formData_get [("email", EntryString "not-an-email")] "email") = true)
    ∧ (password_error errors = None
       ↔ password_accepted (formData_get [("email", EntryString "not-an-email")] "password")
         = true).
Proof.
  apply (login_rejects_invalid_form (H := Reference.engine) None
           [("email", EntryString "not-an-email")]
           (at_time new_year Mocks.handlers) empty_jar).
  - reflexivity.
  - reflexivity.
Defined.

Lemma login_form_feedback_witness :
  let v := LoginFormUi.LoginForm
             (Some (Message "Invalid email or password. Please try again.")) false in
  (LoginFormUi.shown_message v ≠ None
   ∧ LoginFormUi.shown_email_error v = None
   ∧ LoginFormUi.shown_password_error v = None)
  ∨ (LoginFormUi.shown_message v = None
     ∧ (LoginFormUi.shown_email_error v ≠ None
        ∨ LoginFormUi.shown_password_error v ≠ None)).
Proof.
  apply (login_form_always_shows_feedback (H := Reference.engine) None wrong_form
           (at_time new_year Mocks.handlers) empty_jar
           (Message "Invalid email or password. Please try again.")).
  vm_compute. reflexivity.
Defined.

Lemma login_stores_only_the_session_record_witness :
  let w' := snd (login (H := Reference.engine) None good_form
                   (at_time new_year Mocks.handlers) empty_jar) in
  (∀ name, name ≠ "session" → cookies w' !! name = cookies empty_jar !! name)
  ∧ ∃ evs, log w' = log empty_jar ++ evs
    ∧ ∀ name c, CookieSet name c ∈ evs →
        name = "session"
        ∧ cookies w' !! "session" = Some c
        ∧ (∃ email password id mail role,
             validated good_form email password
             ∧ upstream_success (H := Reference.engine)
                 (at_time new_year Mocks.handlers) email password id mail role
             ∧ c = session_cookie_for (H := Reference.engine)
                     (at_time new_year Mocks.handlers) id mail role
             ∧ cookie_value c
               = JSON_stringify [("userId", id); ("email", mail); ("role", role);
                                 ("expiresAt",
                                  Some (JStr (Reference.Date_toISOString
                                                (new_year + seven_days))))])
        ∧ httpOnly c = true ∧ sameSite c = "lax" ∧ cookie_path c = "/"
        ∧ secure c = false ∧ expires c = new_year + seven_days
        ∧ ∃ props, cookie_value c = JSONText (JObj props)
                   ∧ ∀ k, has_own k props = true →
                          k ∈ ["userId"; "email"; "role"; "expiresAt"].
Proof.
  apply (login_stores_only_the_session_record (H := Reference.engine) None good_form
           (at_time new_year Mocks.handlers) empty_jar).
Defined.

Lemma login_then_verifySession_witness :
  fst (verifySession (H := Reference.engine) (at_time a_week_later Mocks.handlers)
         (snd (login (H := Reference.engine) None good_form
                 (at_time new_year Mocks.handlers) empty_jar)))
  = Normal {| isAuth := true;
              userId := Some (int 1);
              email := Some (JStr "john@mail.com");
              role := Some (JStr "customer") |}.
Proof.
  apply (login_then_verifySession (H := Reference.engine) None good_form
           "john@mail.com" "changeme"
           (Some (int 1)) (Some (JStr "john@mail.com")) (Some (JStr "customer"))
           (at_time new_year Mocks.handlers) (at_time a_week_later Mocks.handlers) empty_jar).
  - repeat split; reflexivity.
  - exists {| status := 200;
              response_body :=
                JSONText (JObj [("access_token", JStr "mock-access-token-123");
                                ("refresh_token", JStr "mock-refresh-token-456")]) |},
      "mock-access-token-123",
      {| status := 200; response_body := JSONText Mocks.mock_user |}.
    repeat split; reflexivity.
  - reflexivity.
  - reflexivity.
  - vm_compute. discriminate.
Defined.

(** ** The data access layer and the pages *)

Section DataAccess.
Context `{Platform}.

(** Every run of [getUser] for a visitor with a session. *)
Lemma getUser_run (e : env) (w : world) (session : json) :
  fst (getSession e w) = Normal session →
  ToBoolean (OptGet session "userId") = true →
  DalUser.getUser e w
  = match template (OptGet session "userId") with
    | Throw x =>
        (Normal JNull, {| cookies := cookies w; log := log w ++ [ConsoleError x] |})
    | Normal id =>
        match network e (user_request id) with
        | None =>
            (Normal JNull,
             {| cookies := cookies w;
                log := log w ++ [Fetched (user_request id); ConsoleError FetchFailed] |})
        | Some r =>
            if ok r
            then match JSON_parse (response_body r) with
                 | Normal user =>
                     (Normal user,
                      {| cookies := cookies w; log := log w ++ [Fetched (user_request id)] |})
                 | Throw x =>
                     (Normal JNull,
                      {| cookies := cookies w;
                         log := log w ++ [Fetched (user_request id); ConsoleError x] |})
                 end
            else (Normal JNull,
                  {| cookies := cookies w; log := log w ++ [Fetched (user_request id)] |})
        end
    end.
Proof.
  intros Hsession Hid. unfold DalUser.getUser, bind.
  rewrite (verifySession_run e w session Hsession Hid).
  cbn [userId].
  unfold try_catch, bind, lift, fetch, ret, response_json, console_error, emit.
  destruct (template (OptGet session "userId")) as [id|x] eqn:Hprint; [|reflexivity].
  change {| url := PLATZI_API_URL +:+ "/users/" +:+ id; method := "GET";
            headers := []; body := None |}
    with (user_request id).
  destruct (network e (user_request id)) as [r|] eqn:Hn.
  2:{ cbn. by rewrite <- app_assoc. }
  destruct (ok r) eqn:Hok; cbn; [|reflexivity].
  destruct (JSON_parse (response_body r)) as [user|x] eqn:Hparse; cbn; [reflexivity|].
  by rewrite <- app_assoc.
Qed.

(** X8. [getUser] checks the session first: without one it throws the
    redirect to [/login] and sends nothing. With one it never throws and
    never redirects, and it leaves the jar alone. It then sends exactly one
    request, the one for the printed id of the session, and none only when
    that id cannot be printed (the error is logged and [null] returned). It
    returns the body of the answer when that request came back successful
    and readable, and a user other than [null] only then: a refusal, a
    network failure or an unreadable body all give [null]. *)
Theorem getUser_outcomes (e : env) (w : world) (session : json) :
  fst (getSession e w) = Normal session →
  (ToBoolean (OptGet session "userId") = false →
   DalUser.getUser e w
   = (Throw (NEXT_REDIRECT "/login"),
      {| cookies := cookies w; log := log w ++ [Redirected "/login"] |}))
  ∧ (ToBoolean (OptGet session "userId") = true →
     ∃ user evs,
       DalUser.getUser e w
       = (Normal user, {| cookies := cookies w; log := log w ++ evs |})
       ∧ Forall (λ ev, is_cookie_set ev = false ∧ is_redirect ev = false) evs
       ∧ (∀ x, template (OptGet session "userId") = Throw x →
            user = JNull ∧ evs = [ConsoleError x])
       ∧ (∀ id, template (OptGet session "userId") = Normal id →
            List.filter is_fetch evs = [Fetched (user_request id)])
       ∧ (∀ id r v,
            template (OptGet session "userId") = Normal id →
            network e (user_request id) = Some r → ok r = true →
            JSON_parse (response_body r) = Normal v →
            user = v ∧ evs = [Fetched (user_request id)])
       ∧ (user ≠ JNull →
          ∃ id r,
            template (OptGet session "userId") = Normal id
            ∧ network e (user_request id) = Some r ∧ ok r = true
            ∧ JSON_parse (response_body r) = Normal user
            ∧ evs = [Fetched (user_request id)])).
Proof.
  intros Hsession. split; intros Hid.
  - unfold DalUser.getUser, bind.
    by rewrite (verifySession_redirects e w session Hsession Hid).
  - rewrite (getUser_run e w session Hsession Hid).
    destruct (template (OptGet session "userId")) as [id|x] eqn:Hprint.
    2:{ exists JNull, [ConsoleError x]. split; [reflexivity|].
        split; [repeat constructor|].
        split; [by intros ? [= <-]|].
        split; [intros ? [=]|]. split; [intros ? ? ? [=]|]. done. }
    destruct (network e (user_request id)) as [r|] eqn:Hn.
    2:{ exists JNull, [Fetched (user_request id); ConsoleError FetchFailed].
        split; [reflexivity|]. split; [repeat constructor|].
        split; [intros ? [=]|].
        split; [by intros ? [= <-]|].
        split; [|done]. intros id' r' v [= <-] Hn'. congruence. }
    destruct (ok r) eqn:Hok.
    2:{ exists JNull, [Fetched (user_request id)].
        split; [reflexivity|]. split; [repeat constructor|].
        split; [intros ? [=]|].
        split; [by intros ? [= <-]|].
        split; [|done]. intros id' r' v [= <-] Hn' Hok'. congruence. }
    destruct (JSON_parse (response_body r)) as [user|x] eqn:Hparse.
    2:{ exists JNull, [Fetched (user_request id); ConsoleError x].
        split; [reflexivity|]. split; [repeat constructor|].
        split; [intros ? [=]|].
        split; [by intros ? [= <-]|].
        split; [|done]. intros id' r' v [= <-] Hn' Hok' Hparse'. congruence. }
    exists user, [Fetched (user_request id)].
    split; [reflexivity|]. split; [repeat constructor|].
    split; [intros ? [=]|].
    split; [by intros ? [= <-]|].
    split.
    + intros id' r' v [= <-] Hn' Hok' Hparse'. split; [congruence|reflexivity].
    + intros _. by exists id, r.
Qed.

(** X9. The home page and the guard agree: [HomePage] sends a visitor to
    [/dashboard] exactly when [verifySession] admits that visitor, and
    shows the link to the login page exactly when [verifySession] would
    redirect to [/login]. So the dashboard never sends back a visitor whom
    the home page sent there. *)
Theorem home_page_agrees_with_the_guard (e : env) (w : world) :
  (fst (Pages.HomePage e w) = Throw (NEXT_REDIRECT "/dashboard")
   ↔ ∃ session, fst (verifySession e w) = Normal session)
  ∧ (fst (Pages.HomePage e w) = Normal Pages.GoToLogin
     ↔ fst (verifySession e w) = Throw (NEXT_REDIRECT "/login")).
Proof.
  pose proof (getSession_read e w) as Hread.
  set (session := read_value (now e) (session_cookie w)) in *.
  assert (Hfst : fst (getSession e w) = Normal session) by (by rewrite Hread).
  unfold Pages.HomePage, bind. rewrite Hread.
  destruct (ToBoolean (OptGet session "userId")) eqn:Hid.
  - rewrite (verifySession_run e w session Hfst Hid). cbn.
    split; split; try done. intros _. by eexists.
  - rewrite (verifySession_redirects e w session Hfst Hid). cbn.
    split; split; try done. intros [s Hs]. discriminate Hs.
Qed.

Lemma requireRole_run (allowedRoles : list string) (e : env) (w : world) (session : json) :
  fst (getSession e w) = Normal session →
  ToBoolean (OptGet session "userId") = true →
  fst (requireRole allowedRoles e w)
  = if includes allowedRoles (OptGet session "role")
    then Normal {| isAuth := true;
                   userId := OptGet session "userId";
                   email := OptGet session "email";
                   role := OptGet session "role" |}
    else Throw (NEXT_REDIRECT "/dashboard").
Proof.
  intros Hsession Hid. unfold requireRole, bind.
  rewrite (verifySession_run e w session Hsession Hid). cbn [role].
  by destruct (includes allowedRoles (OptGet session "role")).
Qed.

(** X10. The dashboard and the admin page agree on who is an admin: when
    [DashboardPage] renders, it shows the link to the admin panel exactly
    when [AdminPage] admits the same visitor; and [DashboardPage] renders
    for every visitor with a session, whatever the user service answers. *)
Theorem dashboard_link_agrees_with_admin_page (e : env) (w : world) :
  (∀ view, fst (Pages.DashboardPage e w) = Normal view →
     (Pages.admin_link view = true ↔ ∃ admin, fst (Pages.AdminPage e w) = Normal admin))
  ∧ ((∃ view, fst (Pages.DashboardPage e w) = Normal view)
     ↔ ∃ session, fst (verifySession e w) = Normal session).
Proof.
  pose proof (getSession_read e w) as Hread.
  set (session := read_value (now e) (session_cookie w)) in *.
  assert (Hfst : fst (getSession e w) = Normal session) by (by rewrite Hread).
  destruct (ToBoolean (OptGet session "userId")) eqn:Hid.
  - assert (Hrun : ∃ user wu, DalUser.getUser e w = (Normal user, wu)).
    { rewrite (getUser_run e w session Hfst Hid).
      destruct (template (OptGet session "userId")); [|by eexists _, _].
      destruct (network e (user_request _)) as [r|]; [|by eexists _, _].
      destruct (ok r); [|by eexists _, _].
      destruct (JSON_parse (response_body r)); by eexists _, _. }
    destruct Hrun as (user & wu & Huser).
    assert (Hpage : fst (Pages.DashboardPage e w)
                    = Normal {| Pages.user_card :=
                                  if ToBoolean (Some user) then Some user else None;
                                Pages.admin_link :=
                                  strict_eq_string (OptGet session "role") "admin" |}).
    { unfold Pages.DashboardPage, bind.
      rewrite (verifySession_run e w session Hfst Hid), Huser. reflexivity. }
    assert (Hadmin : fst (Pages.AdminPage e w)
                     = if strict_eq_string (OptGet session "role") "admin"
                       then Normal {| Pages.current_user := OptGet session "email";
                                      Pages.current_role := OptGet session "role" |}
                       else Throw (NEXT_REDIRECT "/dashboard")).
    { pose proof (requireRole_run ["admin"] e w session Hfst Hid) as Hrole.
      unfold includes in Hrole. cbn [existsb] in Hrole. rewrite orb_false_r in Hrole.
      unfold Pages.AdminPage, bind.
      destruct (requireRole ["admin"] e w) as [[v|x] w'] eqn:Hrun; cbn [fst] in Hrole;
        destruct (strict_eq_string (OptGet session "role") "admin");
        try discriminate Hrole; injection Hrole as ->; reflexivity. }
    split.
    + intros view Hview. rewrite Hpage in Hview. injection Hview as <-.
      cbn [Pages.admin_link]. rewrite Hadmin.
      destruct (strict_eq_string (OptGet session "role") "admin").
      * split; [intros _; by eexists | done].
      * split; [done | intros [a Ha]; discriminate Ha].
    + rewrite Hpage, (verifySession_run e w session Hfst Hid).
      split; intros _; by eexists.
  - assert (Hpage : fst (Pages.DashboardPage e w) = Throw (NEXT_REDIRECT "/login")).
    { unfold Pages.DashboardPage, bind.
      by rewrite (verifySession_redirects e w session Hfst Hid). }
    rewrite Hpage, (verifySession_redirects e w session Hfst Hid). cbn.
    split.
    + intros view Hview. discriminate Hview.
    + split; intros [v Hv]; discriminate Hv.
Qed.

End DataAccess.

Lemma getUser_outcomes_witness :
  ∃ user evs,
    DalUser.getUser (H := Reference.engine) (at_time new_year Mocks.unreachable)
      (jar_with (JSONText (JObj customer_record)))
    = (Normal user,
       {| cookies := cookies (jar_with (JSONText (JObj customer_record)));
          log := log (jar_with (JSONText (JObj customer_record))) ++ evs |})
    ∧ Forall (λ ev, is_cookie_set ev = false ∧ is_redirect ev = false) evs
    ∧ (∀ x, template (H := Reference.engine) (OptGet (JObj customer_record) "userId")
            = Throw x →
         user = JNull ∧ evs = [ConsoleError x])
    ∧ (∀ id, template (H := Reference.engine) (OptGet (JObj customer_record) "userId")
             = Normal id →
         List.filter is_fetch evs = [Fetched (user_request id)])
    ∧ (∀ id r v,
         template (H := Reference.engine) (OptGet (JObj customer_record) "userId")
         = Normal id →
         network (at_time new_year Mocks.unreachable) (user_request id) = Some r →
         ok r = true →
         JSON_parse (response_body r) = Normal v →
         user = v ∧ evs = [Fetched (user_request id)])
    ∧ (user ≠ JNull →
       ∃ id r,
         template (H := Reference.engine) (OptGet (JObj customer_record) "userId") = Normal id
         ∧ network (at_time new_year Mocks.unreachable) (user_request id) = Some r
         ∧ ok r = true
         ∧ JSON_parse (response_body r) = Normal user
         ∧ evs = [Fetched (user_request id)]).
Proof.
  apply (getUser_outcomes (H := Reference.engine) (at_time new_year Mocks.unreachable)
           (jar_with (JSONText (JObj customer_record))) (JObj customer_record)).
  - reflexivity.
  - reflexivity.
Defined.

Lemma dashboard_link_witness :
  Pages.admin_link {| Pages.user_card := None; Pages.admin_link := true |} = true
  ↔ ∃ admin, fst (Pages.AdminPage (H := Reference.engine)
                     (at_time new_year Mocks.unreachable)
                     (jar_with (JSONText (JObj admin_record)))) = Normal admin.
Proof.
  apply (dashboard_link_agrees_with_admin_page (H := Reference.engine)
           (at_time new_year Mocks.unreachable) (jar_with (JSONText (JObj admin_record)))).
  vm_compute. reflexivity.
Defined.

(** ** The gatekeeper, the guard and the scalable gatekeeper *)

Section GatekeeperProperties.
Context `{Platform}.

(** X11. The gatekeeper redirects to two places only, [/login] with the
    requested path as its [redirect] parameter and [/dashboard], and the
    page it redirects to is let through when requested with the same
    cookies at the same instant: one redirect, never a loop. *)
Theorem gatekeeper_redirects_once (now : Z) (req : NextRequest) (target : URL) :
  middleware now req = redirect_to target →
  (target = {| url_pathname := "/login"; searchParams := [("redirect", pathname req)] |}
   ∨ target = {| url_pathname := "/dashboard"; searchParams := [] |})
  ∧ middleware now {| pathname := url_pathname target;
                      request_cookies := request_cookies req |} = next.
Proof.
  unfold middleware. cbn [pathname request_cookies].
  generalize (session_of_cookie now (request_cookies req !! "session")). intros session.
  destruct (ToBoolean (OptGet session "userId")) eqn:Hid; cbn [negb].
  - rewrite andb_false_r, !andb_true_r.
    destruct (existsb (String.eqb (pathname req)) publicRoutes
              && (pathname req =? "/login")%string).
    { intros [= <-]. split; [by right|]. reflexivity. }
    destruct (String.prefix "/admin" (pathname req)
              && negb (strict_eq_string (OptGet session "role") "admin")); [|discriminate].
    intros [= <-]. split; [by right|]. reflexivity.
  - rewrite !andb_false_r, andb_true_r.
    unfold protectedRoutes. cbn [existsb].
    destruct (String.prefix "/dashboard" (pathname req)); cbn [orb].
    { intros [= <-]. split; [by left|]. reflexivity. }
    destruct (String.prefix "/admin" (pathname req)); cbn [orb andb]; [|discriminate].
    intros [= <-]. split; [by left|]. reflexivity.
Qed.

Lemma decoders_compared (now : Z) (c : option text) :
  (read_value now c ≠ JNull → session_of_cookie now c = read_value now c)
  ∧ ((∀ v x, c = Some (JSONText v) → Get v "expiresAt" = Normal (Some x) →
             ToBoolean (Some x) = true) →
     session_of_cookie now c = read_value now c).
Proof.
  unfold session_of_cookie, read_value, cookie_missing.
  destruct c as [[raw|v]|]; cbn [text_nonempty JSON_parse cbind negb]; try done.
  - split; intros _; by destruct (negb (raw =? "")%string).
  - destruct (Get v "expiresAt") as [[x|]|err] eqn:Hget; cbn [cbind];
      [|split; intros _; reflexivity|done].
    destruct (Date_new (Some x)) as [d|err] eqn:Hd, (ToBoolean (Some x)) eqn:Htruthy;
      cbn [cbind].
    + split; intros _; by destruct (Date_lt d (Some now)).
    + split.
      * by destruct (Date_lt d (Some now)).
      * intros Hall. specialize (Hall v x eq_refl Hget). congruence.
    + done.
    + split; [done|].
      intros Hall. specialize (Hall v x eq_refl Hget). congruence.
Qed.

(** X12. The two decoders: every session that [getSession] returns, the
    gatekeeper decodes to the same value; and for a token whose
    [expiresAt] is absent or truthy the two decoders agree altogether.
    (They can differ only on a token whose [expiresAt] is a falsy value,
    which the gatekeeper does not test.) *)
Theorem gatekeeper_decodes_what_the_guard_reads (now : Z) (c : option text) :
  (read_value now c ≠ JNull → session_of_cookie now c = read_value now c)
  ∧ ((∀ v x, c = Some (JSONText v) → Get v "expiresAt" = Normal (Some x) →
             ToBoolean (Some x) = true) →
     session_of_cookie now c = read_value now c).
Proof. apply decoders_compared. Qed.

Lemma gatekeeper_with_session (now : Z) (req : NextRequest) (session : json) :
  session_of_cookie now (request_cookies req !! "session") = session →
  ToBoolean (OptGet session "userId") = true →
  pathname req ≠ "/login" →
  middleware now req
  = if String.prefix "/admin" (pathname req)
       && negb (strict_eq_string (OptGet session "role") "admin")
    then redirect_to {| url_pathname := "/dashboard"; searchParams := [] |}
    else next.
Proof.
  intros Hs Hid Hpath. unfold middleware. rewrite Hs, Hid.
  apply String.eqb_neq in Hpath. rewrite Hpath. cbn [negb].
  by rewrite !andb_false_r.
Qed.

(** X13. The guard is at least as strict as the gatekeeper: when
    [verifySession] admits the visitor, the gatekeeper lets the same
    cookie through on every path other than [/login] and outside [/admin];
    and when [requireRole(["admin"])] admits the visitor, the gatekeeper
    lets the cookie through on every path under [/admin] as well. *)
Theorem guard_admits_only_what_the_gatekeeper_lets_through (e : env) (w : world)
    (req : NextRequest) :
  request_cookies req !! "session" = session_cookie w →
  pathname req ≠ "/login" →
  ((∃ session, fst (verifySession e w) = Normal session) →
   String.prefix "/admin" (pathname req) = false →
   middleware (now e) req = next)
  ∧ ((∃ session, fst (requireRole ["admin"] e w) = Normal session) →
     middleware (now e) req = next).
Proof.
  intros Hcookie Hpath.
  pose proof (getSession_read e w) as Hread.
  set (session := read_value (now e) (session_cookie w)) in *.
  assert (Hfst : fst (getSession e w) = Normal session) by (by rewrite Hread).
  destruct (ToBoolean (OptGet session "userId")) eqn:Hid.
  2:{ split; intros [s Hs].
      - rewrite (verifySession_redirects e w session Hfst Hid) in Hs. discriminate Hs.
      - unfold requireRole, bind in Hs.
        rewrite (verifySession_redirects e w session Hfst Hid) in Hs. discriminate Hs. }
  assert (Hnot_null : session ≠ JNull) by (intros Hnull; by rewrite Hnull in Hid).
  assert (Hdecode : session_of_cookie (now e) (request_cookies req !! "session") = session).
  { rewrite Hcookie.
    by apply (proj1 (decoders_compared (now e) (session_cookie w))). }
  rewrite (gatekeeper_with_session (now e) req session Hdecode Hid Hpath).
  split.
  - intros _ ->. reflexivity.
  - intros [s Hs]. rewrite (requireRole_run ["admin"] e w session Hfst Hid) in Hs.
    unfold includes in Hs. cbn [existsb] in Hs. rewrite orb_false_r in Hs.
    destruct (strict_eq_string (OptGet session "role") "admin"); [|discriminate Hs].
    by rewrite andb_false_r.
Qed.

Lemma proxy_decodes_like_middleware (now : Z) (c : option text) :
  ScalableProxy.session_of_cookie now c = session_of_cookie now c.
Proof.
  unfold ScalableProxy.session_of_cookie, session_of_cookie.
  destruct (cookie_missing c); [reflexivity|].
  destruct c as [[raw|v]|]; try reflexivity.
  cbn [JSON_parse cbind].
  destruct v as [|b|n|str|items|props]; try reflexivity; cbn.
  - destruct b; reflexivity.
  - destruct n as [q|neg]; [destruct (Qnum q =? 0)|]; reflexivity.
  - destruct (negb (str =? "")%string); reflexivity.
Qed.

Lemma proxy_role_check_admin_only (path : string) (session : json) :
  String.prefix "/moderator" path = false →
  String.prefix "/editor" path = false →
  ScalableProxy.role_check path session ScalableProxy.roleRoutes
  = if String.prefix "/admin" path
       && negb (strict_eq_string (OptGet session "role") "admin")
    then Some (redirect_to {| url_pathname := "/dashboard"; searchParams := [] |})
    else None.
Proof.
  intros Hm He. unfold ScalableProxy.roleRoutes. cbn [ScalableProxy.role_check].
  rewrite Hm, He. cbn [andb].
  destruct (String.prefix "/admin" path); [|reflexivity]. cbn [andb].
  unfold includes. cbn [existsb]. rewrite orb_false_r.
  destruct (OptGet session "role") as [[|b|n|str|items|props]|];
    cbn [strict_eq_string negb]; rewrite ?orb_true_r; try reflexivity.
  destruct (String.eqb_spec str "admin") as [->|Hne]; [reflexivity|].
  cbn [negb]. by rewrite orb_true_r.
Qed.

(** X14. The scalable gatekeeper of the README extends the first one: on
    every path outside the four routes it adds ([/profile], [/moderator],
    [/editor], [/settings]) it answers exactly as [middleware] does, for
    every cookie and at every instant. *)
Theorem proxy_agrees_with_middleware (now : Z) (req : NextRequest) :
  String.prefix "/profile" (pathname req) = false →
  String.prefix "/moderator" (pathname req) = false →
  String.prefix "/editor" (pathname req) = false →
  String.prefix "/settings" (pathname req) = false →
  ScalableProxy.proxy now req = middleware now req.
Proof.
  intros Hp Hm He Hs. unfold ScalableProxy.proxy, middleware.
  rewrite proxy_decodes_like_middleware.
  unfold ScalableProxy.protectedRoutes, protectedRoutes,
    ScalableProxy.publicRoutes, publicRoutes.
  cbn [existsb]. rewrite Hp, Hm, He, Hs.
  rewrite (proxy_role_check_admin_only _ _ Hm He).
  destruct (String.prefix "/dashboard" (pathname req)),
    (String.prefix "/admin" (pathname req)); cbn [orb andb];
    repeat match goal with |- context [if ?b then _ else _] => destruct b end;
    reflexivity.
Qed.

Lemma proxy_role_check_none (path : string) (session : json)
    (entries : list (string * list string)) :
  ScalableProxy.role_check path session entries = None →
  ∀ route allowed, (route, allowed) ∈ entries → String.prefix route path = true →
    includes allowed (OptGet session "role") = true.
Proof.
  induction entries as [|[r a] rest IH]; intros Hcheck route allowed Hin Hprefix.
  - by apply elem_of_nil in Hin.
  - cbn [ScalableProxy.role_check] in Hcheck.
    destruct (String.prefix r path
              && (negb (ToBoolean (OptGet session "role"))
                  || negb (includes a (OptGet session "role")))) eqn:Hthis;
      [discriminate Hcheck|].
    apply elem_of_cons in Hin as [[= -> ->] | Hin].
    + rewrite Hprefix in Hthis. cbn [andb] in Hthis.
      apply orb_false_iff in Hthis as [_ Hinc]. by apply negb_false_iff in Hinc.
    + by apply (IH Hcheck route allowed).
Qed.

(** X15. Role routes of the scalable gatekeeper: a request that it lets
    through on a path under an entry of [roleRoutes] carries a session with
    a user id and a role among those the entry allows, and this for every
    entry the path falls under. *)
Theorem proxy_lets_through_only_allowed_roles (now : Z) (req : NextRequest)
    (route : string) (allowed : list string) :
  (route, allowed) ∈ ScalableProxy.roleRoutes →
  String.prefix route (pathname req) = true →
  ScalableProxy.proxy now req = next →
  let session := ScalableProxy.session_of_cookie now (request_cookies req !! "session") in
  ToBoolean (OptGet session "userId") = true
  ∧ includes allowed (OptGet session "role") = true.
Proof.
  intros Hin Hprefix. unfold ScalableProxy.proxy.
  set (session := ScalableProxy.session_of_cookie now (request_cookies req !! "session")).
  assert (Hprotected :
            existsb (λ r, String.prefix r (pathname req)) ScalableProxy.protectedRoutes = true).
  { apply existsb_exists. exists route. split; [|done].
    unfold ScalableProxy.roleRoutes in Hin. unfold ScalableProxy.protectedRoutes.
    rewrite !elem_of_cons in Hin.
    destruct Hin as [[= -> _] | [[= -> _] | [[= -> _] | Hin]]];
      [| | |by apply elem_of_nil in Hin]; cbn; auto 10. }
  rewrite Hprotected. cbn [andb].
  destruct (ToBoolean (OptGet session "userId")) eqn:Hid; cbn [negb]; [|discriminate].
  destruct (existsb (String.eqb (pathname req)) ScalableProxy.publicRoutes
            && (pathname req =? "/login")%string && true); [discriminate|].
  destruct (ScalableProxy.role_check (pathname req) session ScalableProxy.roleRoutes)
    as [response|] eqn:Hcheck.
  - intros ->. exfalso.
    clear -Hcheck. revert Hcheck. generalize ScalableProxy.roleRoutes.
    induction l as [|[r a] rest IH]; cbn; [discriminate|].
    destruct (_ && _); [discriminate | exact IH].
  - intros _. cbn zeta. split; [reflexivity|].
    by apply (proxy_role_check_none _ _ _ Hcheck route allowed).
Qed.

End GatekeeperProperties.

(** ** The counter *)

Section CounterProperties.

Lemma after_snoc (clicks : list CounterUi.click) (c : CounterUi.click) :
  CounterUi.after (clicks ++ [c]) = CounterUi.handle (CounterUi.after clicks) c.
Proof. unfold CounterUi.after. by rewrite fold_left_app. Qed.

Lemma since_reset_snoc (clicks : list CounterUi.click) (c : CounterUi.click) :
  since_reset (clicks ++ [c])
  = match c with CounterUi.Reset => [] | _ => since_reset clicks ++ [c] end.
Proof. unfold since_reset. by rewrite fold_left_app. Qed.

Lemma balance_snoc (clicks : list CounterUi.click) (c : CounterUi.click) :
  balance (clicks ++ [c])
  = match c with
    | CounterUi.Increment => balance clicks + 1
    | CounterUi.Decrement => balance clicks - 1
    | CounterUi.Reset => 0
    end.
Proof. unfold balance. by rewrite fold_left_app. Qed.

Lemma counter_invariant (clicks : list CounterUi.click) :
  let s := CounterUi.after clicks in
  CounterUi.count s = List.last (CounterUi.history s) 0
  ∧ List.length (CounterUi.history s) = List.length (since_reset clicks)
  ∧ Z.abs (CounterUi.count s) <= Z.of_nat (List.length (since_reset clicks))
  ∧ Z.abs (CounterUi.count s) <= CounterUi.limit.
Proof.
  cbn zeta. induction clicks as [|c clicks IH] using rev_ind.
  - cbn; repeat split; try done; unfold CounterUi.limit; lia.
  - destruct IH as (Hlast & Hlen & Habs & Hlim).
    rewrite after_snoc, since_reset_snoc.
    destruct c; cbn [CounterUi.handle CounterUi.increment CounterUi.decrement
                       CounterUi.reset CounterUi.count CounterUi.history].
    + rewrite last_last, !length_app, Hlen. cbn [List.length].
      unfold CounterUi.plus_one.
      destruct (Z.eqb_spec (CounterUi.count (CounterUi.after clicks)) CounterUi.limit);
        unfold CounterUi.limit in *; repeat split; lia.
    + rewrite last_last, !length_app, Hlen. cbn [List.length].
      unfold CounterUi.minus_one.
      destruct (Z.eqb_spec (CounterUi.count (CounterUi.after clicks)) (- CounterUi.limit));
        unfold CounterUi.limit in *; repeat split; lia.
    + cbn; repeat split; try done; unfold CounterUi.limit; lia.
Qed.

(** X16. The counter keeps its two pieces of state in step: after any
    sequence of clicks the count is the last entry of the history (0 when
    the history is empty), the history has one entry per click since the
    last reset, the count is never further from 0 than that number of
    clicks nor than 2^53, and the history is shown exactly when there was a
    click since the last reset. *)
Theorem counter_state_is_consistent (clicks : list CounterUi.click) :
  let s := CounterUi.after clicks in
  CounterUi.count s = List.last (CounterUi.history s) 0
  ∧ List.length (CounterUi.history s) = List.length (since_reset clicks)
  ∧ Z.abs (CounterUi.count s) <= Z.of_nat (List.length (since_reset clicks))
  ∧ Z.abs (CounterUi.count s) <= CounterUi.limit
  ∧ (CounterUi.shown_history (CounterUi.Counter s) = None ↔ since_reset clicks = []).
Proof.
  cbn zeta. destruct (counter_invariant clicks) as (Hlast & Hlen & Habs & Hlim).
  repeat split; try done.
  - unfold CounterUi.Counter. cbn [CounterUi.shown_history].
    destruct (CounterUi.history (CounterUi.after clicks)); cbn; [|discriminate].
    intros _. by destruct (since_reset clicks).
  - intros Hnone. rewrite Hnone in Hlen.
    unfold CounterUi.Counter. cbn [CounterUi.shown_history].
    by destruct (CounterUi.history (CounterUi.after clicks)).
Qed.

(** X17. The count is the balance of the clicks: as long as no more than
    2^53 clicks were made since the last reset, the count shown is the
    number of increments minus the number of decrements since that reset,
    however the clicks are interleaved; and a reset brings the counter
    back to its initial state. *)
Theorem counter_counts_the_clicks (clicks : list CounterUi.click) :
  Z.of_nat (List.length (since_reset clicks)) <= CounterUi.limit →
  CounterUi.count (CounterUi.after clicks) = balance clicks
  ∧ CounterUi.after (clicks ++ [CounterUi.Reset]) = CounterUi.initial.
Proof.
  intros Hfew. split; [|by rewrite after_snoc].
  induction clicks as [|c clicks IH] using rev_ind; [reflexivity|].
  rewrite after_snoc, balance_snoc. rewrite since_reset_snoc in Hfew.
  destruct (counter_invariant clicks) as (_ & _ & Habs & _).
  destruct c; cbn [CounterUi.handle CounterUi.increment CounterUi.decrement
                     CounterUi.reset CounterUi.count]; [| |reflexivity].
  - rewrite length_app in Hfew. cbn [List.length] in Hfew.
    rewrite <- IH by lia.
    unfold CounterUi.plus_one.
    destruct (Z.eqb_spec (CounterUi.count (CounterUi.after clicks)) CounterUi.limit); lia.
  - rewrite length_app in Hfew. cbn [List.length] in Hfew.
    rewrite <- IH by lia.
    unfold CounterUi.minus_one.
    destruct (Z.eqb_spec (CounterUi.count (CounterUi.after clicks)) (- CounterUi.limit)); lia.
Qed.

End CounterProperties.

Lemma counter_counts_the_clicks_witness :
  CounterUi.count
    (CounterUi.after [CounterUi.Increment; CounterUi.Reset; CounterUi.Increment;
                      CounterUi.Increment; CounterUi.Decrement; CounterUi.Increment])
  = 2.
Proof.
  apply (counter_counts_the_clicks
           [CounterUi.Increment; CounterUi.Reset; CounterUi.Increment;
            CounterUi.Increment; CounterUi.Decrement; CounterUi.Increment]).
  vm_compute. discriminate.
Defined.

(** ** The shape of an accepted email address *)

Section EmailShape.

Lemma append_nil_l (s : string) : "" +:+ s = s.
Proof. reflexivity. Qed.

Lemma append_cons (c : ascii) (u v : string) : String c u +:+ v = String c (u +:+ v).
Proof. reflexivity. Qed.

Lemma split_at_spec (c : ascii) (s l r : string) :
  split_at c s = Some (l, r) → s = l +:+ String c r ∧ has_char c l = false.
Proof.
  revert l r. induction s as [|d s IH]; intros l r; cbn [split_at]; [discriminate|].
  destruct (Ascii.eqb_spec c d) as [->|Hne].
  - intros [= <- <-]. done.
  - destruct (split_at c s) as [[l' r']|]; [|discriminate].
    intros [= <- <-]. destruct (IH l' r' eq_refl) as [-> Hl]. split; [done|].
    cbn [has_char]. apply Ascii.eqb_neq in Hne. by rewrite Hne.
Qed.

Lemma split_at_first (c : ascii) (l r : string) :
  has_char c l = false → split_at c (l +:+ String c r) = Some (l, r).
Proof.
  induction l as [|d l IH]; rewrite ?append_cons, ?append_nil_l; cbn [split_at has_char].
  - intros _. by rewrite Ascii.eqb_refl.
  - intros Hno. apply orb_false_iff in Hno as [Hd Hl].
    by rewrite Hd, (IH Hl).
Qed.

Lemma has_char_app (c : ascii) (u v : string) :
  has_char c (u +:+ v) = has_char c u || has_char c v.
Proof.
  induction u as [|d u IH]; rewrite ?append_cons, ?append_nil_l; cbn [has_char]; [done|].
  by rewrite IH, orb_assoc.
Qed.

Lemma prefix_nil (s : string) : String.prefix "" s = true.
Proof. by destruct s. Qed.

Lemma prefix_app (p u v : string) :
  String.prefix p u = true → String.prefix p (u +:+ v) = true.
Proof.
  revert u. induction p as [|a p IH]; intros u; [intros _; apply prefix_nil|].
  destruct u as [|b u]; rewrite ?append_cons; cbn [String.prefix]; [discriminate|].
  destruct (ascii_dec a b); [apply IH | discriminate].
Qed.

Lemma prefix_app_inv (p u v : string) (c : ascii) :
  String.prefix p (u +:+ String c v) = true →
  String.prefix p u = true ∨ has_char c p = true.
Proof.
  revert u. induction p as [|a p IH]; intros u; [intros _; left; apply prefix_nil|].
  destruct u as [|b u]; rewrite ?append_cons, ?append_nil_l; cbn [String.prefix has_char].
  - destruct (ascii_dec a c) as [->|]; [|discriminate].
    intros _. right. by rewrite Ascii.eqb_refl.
  - destruct (ascii_dec a b) as [->|]; [|discriminate].
    intros Hp. destruct (IH u Hp) as [Hu|Hc]; [by left|].
    right. by rewrite Hc, orb_true_r.
Qed.

Lemma starts_with_space_spec (s : string) :
  starts_with_space s = true ↔ ∃ ws, In ws white_space ∧ String.prefix ws s = true.
Proof.
  unfold starts_with_space, strip_space.
  destruct (List.find (λ ws, String.prefix ws s) white_space) as [ws|] eqn:Hfind.
  - apply find_some in Hfind. split; [intros _; by exists ws | done].
  - split; [discriminate|]. intros (ws & Hin & Hp).
    pose proof (find_none _ _ Hfind ws Hin) as Hno. cbn in Hno. congruence.
Qed.

Lemma white_space_has_no (c : ascii) :
  forallb (λ ws, negb (has_char c ws) && negb (ws =? "")%string) white_space = true →
  ∀ ws, In ws white_space → has_char c ws = false ∧ ws ≠ "".
Proof.
  intros Hall ws Hin. rewrite forallb_forall in Hall. specialize (Hall ws Hin).
  apply andb_true_iff in Hall as [Hc He].
  apply negb_true_iff in Hc. apply negb_true_iff, String.eqb_neq in He. done.
Qed.

Lemma has_space_app_l (u v : string) :
  has_space u = true → has_space (u +:+ v) = true.
Proof.
  induction u as [|d u IH]; [discriminate|].
  change (has_space (String d u)) with (starts_with_space (String d u) || has_space u).
  change (has_space (String d u +:+ v))
    with (starts_with_space (String d u +:+ v) || has_space (u +:+ v)).
  intros Hs. apply orb_true_iff in Hs as [Hs|Hs].
  - apply starts_with_space_spec in Hs as (ws & Hin & Hp).
    apply orb_true_iff. left. apply starts_with_space_spec.
    exists ws. split; [done|]. by apply prefix_app.
  - by rewrite (IH Hs), orb_true_r.
Qed.

Lemma has_space_app_r (u v : string) :
  has_space v = true → has_space (u +:+ v) = true.
Proof.
  intros Hv. induction u as [|d u IH]; [done|].
  change (has_space (String d u +:+ v))
    with (starts_with_space (String d u +:+ v) || has_space (u +:+ v)).
  by rewrite IH, orb_true_r.
Qed.

Lemma has_space_sep (u v : string) (c : ascii) :
  forallb (λ ws, negb (has_char c ws) && negb (ws =? "")%string) white_space = true →
  has_space u = false → has_space v = false →
  has_space (u +:+ String c v) = false.
Proof.
  intros Hall Hu Hv. pose proof (white_space_has_no c Hall) as Hws.
  assert (Hstart : ∀ w, starts_with_space w = false →
                        starts_with_space (w +:+ String c v) = false).
  { intros w Hw. destruct (starts_with_space (w +:+ String c v)) eqn:Hs; [|done].
    apply starts_with_space_spec in Hs as (ws & Hin & Hp).
    destruct (Hws ws Hin) as [Hc _].
    apply prefix_app_inv in Hp as [Hp|Hp]; [|congruence].
    assert (starts_with_space w = true) by (apply starts_with_space_spec; eauto).
    congruence. }
  induction u as [|d u IH].
  - change (has_space ("" +:+ String c v))
      with (starts_with_space ("" +:+ String c v) || has_space v).
    rewrite Hv, orb_false_r. apply Hstart.
    destruct (starts_with_space "") eqn:Hs; [|done].
    apply starts_with_space_spec in Hs as (ws & Hin & Hp).
    destruct (Hws ws Hin) as [_ Hne]. by destruct ws.
  - change (has_space (String d u)) with (starts_with_space (String d u) || has_space u) in Hu.
    apply orb_false_iff in Hu as [Hd Hu].
    change (has_space (String d u +:+ String c v))
      with (starts_with_space (String d u +:+ String c v) || has_space (u +:+ String c v)).
    by rewrite (IH Hu), (Hstart _ Hd).
Qed.

Lemma dot_before_end_split (s : string) :
  dot_before_end s = true → ∃ u v, s = u +:+ String "." v ∧ v ≠ "".
Proof.
  induction s as [|c s IH]; [discriminate|].
  destruct s as [|d s]; [discriminate|].
  change (dot_before_end (String c (String d s)))
    with (Ascii.eqb c "." || dot_before_end (String d s)).
  intros Hdot. apply orb_true_iff in Hdot as [Hc|Hrest].
  - apply Ascii.eqb_eq in Hc as ->. by exists "", (String d s).
  - destruct (IH Hrest) as (u & v & -> & Hv). by exists (String c u), v.
Qed.

Lemma dot_before_end_app (u v : string) :
  v ≠ "" → dot_before_end (u +:+ String "." v) = true.
Proof.
  intros Hv. destruct v as [|d v]; [done|].
  induction u as [|c u IH]; [reflexivity|].
  rewrite append_cons.
  destruct (u +:+ String "." (String d v)) as [|x rest] eqn:Hrest.
  - by destruct u.
  - change (dot_before_end (String c (String x rest)))
      with (Ascii.eqb c "." || dot_before_end (String x rest)).
    by rewrite IH, orb_true_r.
Qed.

(** X18. The addresses [isValidEmail] accepts are exactly the strings of
    the shape local [@] domain [.] top, with the three parts non-empty and
    free of white space and of [@]: one [@] only, and a dot after it with
    something on both sides. *)
Theorem isValidEmail_shape (s : string) :
  isValidEmail s = true
  ↔ ∃ a b c,
      s = a +:+ "@" +:+ b +:+ "." +:+ c
      ∧ a ≠ "" ∧ b ≠ "" ∧ c ≠ ""
      ∧ has_space a = false ∧ has_char "@" a = false
      ∧ has_space b = false ∧ has_char "@" b = false
      ∧ has_space c = false ∧ has_char "@" c = false.
Proof.
  assert (Hat : forallb (λ ws, negb (has_char "@" ws) && negb (ws =? "")%string) white_space
                = true) by reflexivity.
  assert (Hdot : forallb (λ ws, negb (has_char "." ws) && negb (ws =? "")%string) white_space
                 = true) by reflexivity.
  unfold isValidEmail. split.
  - destruct (split_at "@" s) as [[local domain]|] eqn:Hsplit; [|discriminate].
    apply split_at_spec in Hsplit as [-> Hlocal].
    intros Hall. repeat (apply andb_true_iff in Hall as [Hall ?]).
    destruct domain as [|d rest]; [discriminate|].
    match goal with Hd : dot_before_end rest = true |- _ =>
      destruct (dot_before_end_split rest Hd) as (u & c & -> & Hc) end.
    exists local, (String d u), c.
    repeat match goal with Hn : negb _ = true |- _ => apply negb_true_iff in Hn end.
    match goal with Hs : has_space (String d (u +:+ String "." c)) = false |- _ =>
      change (String d (u +:+ String "." c)) with (String d u +:+ String "." c) in Hs;
      assert (Hb : has_space (String d u) = false)
        by (destruct (has_space (String d u)) eqn:E; [|done];
            by rewrite (has_space_app_l _ (String "." c) E) in Hs);
      assert (Hcs : has_space c = false)
        by (destruct (has_space c) eqn:E; [|done];
            assert (E' : has_space (String "." c) = true)
              by (change (String "." c) with ("." +:+ c); by apply has_space_app_r);
            by rewrite (has_space_app_r (String d u) _ E') in Hs)
    end.
    match goal with Hc' : has_char "@" (String d (u +:+ String "." c)) = false |- _ =>
      change (String d (u +:+ String "." c)) with (String d u +:+ String "." c) in Hc';
      rewrite has_char_app in Hc'; apply orb_false_iff in Hc' as [Hbu Hcu];
      cbn [has_char] in Hcu
    end.
    repeat split; try done.
    + intros ->. discriminate.
  - intros (a & b & c & -> & Ha & Hb & Hc & Hsa & Hca & Hsb & Hcb & Hsc & Hcc).
    change (a +:+ "@" +:+ b +:+ "." +:+ c) with (a +:+ String "@" (b +:+ String "." c)).
    rewrite (split_at_first _ _ _ Hca).
    destruct a as [|a0 a]; [done|]. cbn [String.eqb negb andb].
    rewrite Hsa. cbn [negb andb].
    rewrite has_char_app, Hcb. cbn [has_char orb]. rewrite Hcc. cbn [negb andb].
    rewrite (has_space_sep b c "." Hdot Hsb Hsc). cbn [negb andb].
    destruct b as [|b0 b]; [done|]. rewrite append_cons.
    by apply dot_before_end_app.
Qed.

End EmailShape.

Lemma isValidEmail_shape_witness : isValidEmail "john@mail.com" = true.
Proof.
  apply isValidEmail_shape. exists "john", "mail", "com".
  repeat split; try reflexivity; discriminate.
Defined.

(** ** The mock identity provider *)

Section MockProvider.
Context `{Platform}.

Lemma mock_login_response (email password : string) :
  Mocks.handlers (login_request email password)
  = if ((email =? "john@mail.com") && (password =? "changeme"))%string
    then Some {| status := 200;
                 response_body :=
                   JSONText (JObj [("access_token", JStr "mock-access-token-123");
                                   ("refresh_token", JStr "mock-refresh-token-456")]) |}
    else Some {| status := 401; response_body := Mocks.message_body "Invalid credentials" |}.
Proof.
  unfold Mocks.handlers, login_request. cbn.
  by destruct (email =? "john@mail.com")%string, (password =? "changeme")%string.
Qed.

(** X19. Against the mock provider of the test-suite, exactly one pair of
    credentials opens a session: with [john@mail.com] and [changeme],
    [login] stores the session of user 1 with the role [customer]; with
    any other validated pair it sends one request, returns "Invalid email
    or password. Please try again." and leaves the jar as it was. *)
Theorem mock_provider_accepts_one_pair (st : option LoginFormState) (fd : FormData)
    (email password : string) (e : env) (w : world) :
  validated fd email password →
  network e = Mocks.handlers →
  (email = "john@mail.com" ∧ password = "changeme" →
   cookies (snd (login st fd e w)) !! "session"
   = Some (session_cookie_for e (Some (int 1)) (Some (JStr "john@mail.com"))
             (Some (JStr "customer"))))
  ∧ (¬ (email = "john@mail.com" ∧ password = "changeme") →
     login st fd e w
     = (Normal (Message "Invalid email or password. Please try again."),
        {| cookies := cookies w;
           log := log w ++ [Fetched (login_request email password)] |})).
Proof.
  intros Hv Hnet. split.
  - intros [-> ->].
    assert (Hsucc : upstream_success e "john@mail.com" "changeme"
                      (Some (int 1)) (Some (JStr "john@mail.com")) (Some (JStr "customer"))).
    { exists {| status := 200;
                response_body :=
                  JSONText (JObj [("access_token", JStr "mock-access-token-123");
                                  ("refresh_token", JStr "mock-refresh-token-456")]) |},
        "mock-access-token-123",
        {| status := 200; response_body := JSONText Mocks.mock_user |}.
      rewrite Hnet. repeat split; reflexivity. }
    destruct (login_success_run st fd _ _ e w _ _ _ Hv Hsucc) as (bearer & ->).
    cbn [snd cookies]. by rewrite lookup_insert_eq.
  - intros Hother.
    apply (login_exchange_refused st fd email password e w
             {| status := 401; response_body := Mocks.message_body "Invalid credentials" |});
      [done| |reflexivity].
    rewrite Hnet, mock_login_response.
    destruct (String.eqb_spec email "john@mail.com") as [->|];
      destruct (String.eqb_spec password "changeme") as [->|]; cbn [andb]; try done.
    exfalso. by apply Hother.
Qed.

End MockProvider.

Lemma mock_provider_accepts_one_pair_witness :
  cookies (snd (login (H := Reference.engine) None good_form
                  (at_time new_year Mocks.handlers) empty_jar)) !! "session"
  = Some (session_cookie_for (H := Reference.engine) (at_time new_year Mocks.handlers)
            (Some (int 1)) (Some (JStr "john@mail.com")) (Some (JStr "customer")))
  ∧ login (H := Reference.engine) None wrong_form (at_time new_year Mocks.handlers) empty_jar
    = (Normal (Message "Invalid email or password. Please try again."),
       {| cookies := cookies empty_jar;
          log := log empty_jar
                 ++ [Fetched (login_request "wrong@example.com" "wrongpassword")] |}).
Proof.
  split.
  - apply (mock_provider_accepts_one_pair (H := Reference.engine) None good_form
             "john@mail.com" "changeme" (at_time new_year Mocks.handlers) empty_jar).
    + repeat split; reflexivity.
    + reflexivity.
    + split; reflexivity.
  - apply (mock_provider_accepts_one_pair (H := Reference.engine) None wrong_form
             "wrong@example.com" "wrongpassword" (at_time new_year Mocks.handlers) empty_jar).
    + repeat split; reflexivity.
    + reflexivity.
    + intros [Habs _]. discriminate Habs.
Defined.

(** ** Witnesses for the gatekeeper *)

Lemma gatekeeper_redirects_once_witness :
  ({| url_pathname := "/dashboard"; searchParams := [] |}
   = {| url_pathname := "/login"; searchParams := [("redirect", "/admin/users")] |}
   ∨ {| url_pathname := "/dashboard"; searchParams := [] |}
     = {| url_pathname := "/dashboard"; searchParams := [] |})
  ∧ middleware (H := Reference.engine) new_year
      {| pathname := "/dashboard";
         request_cookies :=
           request_cookies (request_for "/admin/users"
                              (Some (JSONText (JObj customer_record)))) |}
    = next.
Proof.
  apply (gatekeeper_redirects_once (H := Reference.engine) new_year
           (request_for "/admin/users" (Some (JSONText (JObj customer_record))))
           {| url_pathname := "/dashboard"; searchParams := [] |}).
  vm_compute. reflexivity.
Defined.

Lemma gatekeeper_decodes_witness :
  session_of_cookie (H := Reference.engine) new_year (Some (JSONText (JObj customer_record)))
  = read_value (H := Reference.engine) new_year (Some (JSONText (JObj customer_record))).
Proof.
  apply (proj1 (gatekeeper_decodes_what_the_guard_reads (H := Reference.engine) new_year
                  (Some (JSONText (JObj customer_record))))).
  vm_compute. discriminate.
Defined.

Lemma guard_and_gatekeeper_witness :
  middleware (H := Reference.engine) new_year
    (request_for "/admin/users" (Some (JSONText (JObj admin_record))))
  = next.
Proof.
  apply (guard_admits_only_what_the_gatekeeper_lets_through (H := Reference.engine)
           (at_time new_year Mocks.handlers) (jar_with (JSONText (JObj admin_record)))
           (request_for "/admin/users" (Some (JSONText (JObj admin_record))))).
  - reflexivity.
  - discriminate.
  - eexists. vm_compute. reflexivity.
Defined.

Lemma proxy_agrees_with_middleware_witness :
  ScalableProxy.proxy (H := Reference.engine) new_year
    (request_for "/admin/users" (Some (JSONText (JObj customer_record))))
  = middleware (H := Reference.engine) new_year
      (request_for "/admin/users" (Some (JSONText (JObj customer_record)))).
Proof.
  apply (proxy_agrees_with_middleware (H := Reference.engine) new_year
           (request_for "/admin/users" (Some (JSONText (JObj customer_record)))));
    reflexivity.
Defined.

Lemma proxy_lets_through_witness :
  ToBoolean (OptGet (ScalableProxy.session_of_cookie (H := Reference.engine) new_year
                       (Some (JSONText (JObj admin_record)))) "userId") = true
  ∧ includes ["admin"; "editor"]
      (OptGet (ScalableProxy.session_of_cookie (H := Reference.engine) new_year
                 (Some (JSONText (JObj admin_record)))) "role") = true.
Proof.
  apply (proxy_lets_through_only_allowed_roles (H := Reference.engine) new_year
           (request_for "/editor/drafts" (Some (JSONText (JObj admin_record))))
           "/editor" ["admin"; "editor"]).
  - do 2 apply list_elem_of_further. apply list_elem_of_here.
  - reflexivity.
  - vm_compute. reflexivity.
Defined.

Lemma home_page_witness :
  fst (Pages.HomePage (H := Reference.engine) (at_time new_year Mocks.handlers)
         (jar_with (JSONText (JObj customer_record))))
  = Throw (NEXT_REDIRECT "/dashboard").
Proof.
  apply (home_page_agrees_with_the_guard (H := Reference.engine)
           (at_time new_year Mocks.handlers) (jar_with (JSONText (JObj customer_record)))).
  eexists. vm_compute. reflexivity.
Defined.

(** ** More on sessions over time, roles, and the way from login to a page *)

Section OverTime.
Context `{Platform}.

Lemma read_value_later (now now' : Z) (c : option text) :
  now <= now' →
  read_value now' c = JNull ∨ read_value now' c = read_value now c.
Proof.
  intros Hle. unfold read_value.
  destruct c as [[raw|v]|]; cbn [text_nonempty JSON_parse cbind]; auto.
  destruct (Get v "expiresAt") as [x|err]; cbn [cbind]; auto.
  destruct (Date_new x) as [[d|]|err]; cbn [cbind Date_lt]; auto.
  destruct (Z.ltb_spec d now'); auto.
  destruct (Z.ltb_spec d now); auto. lia.
Qed.

Lemma session_of_cookie_later (now now' : Z) (c : option text) :
  now <= now' →
  session_of_cookie now' c = JNull ∨ session_of_cookie now' c = session_of_cookie now c.
Proof.
  intros Hle. unfold session_of_cookie.
  destruct (cookie_missing c); auto.
  destruct c as [[raw|v]|]; cbn [JSON_parse cbind]; auto.
  destruct (Get v "expiresAt") as [x|err]; cbn [cbind]; auto.
  destruct (ToBoolean x); auto.
  destruct (Date_new x) as [[d|]|err]; cbn [cbind Date_lt]; auto.
  destruct (Z.ltb_spec d now'); auto.
  destruct (Z.ltb_spec d now); auto. lia.
Qed.

(** X20. A session that is refused stays refused: if, for a jar, reading
    the session gives [null] at some instant, it gives [null] at every later
    instant; the same holds for the gatekeeper's decoding; and a visitor
    whom [verifySession] sends to [/login] is sent there at every later
    instant too. Time alone never turns a refused cookie into a session. *)
Theorem refused_session_stays_refused (e e' : env) (w : world) (c : option text) :
  now e <= now e' →
  (fst (getSession e w) = Normal JNull → fst (getSession e' w) = Normal JNull)
  ∧ (session_of_cookie (now e) c = JNull → session_of_cookie (now e') c = JNull)
  ∧ (fst (verifySession e w) = Throw (NEXT_REDIRECT "/login") →
     fst (verifySession e' w) = Throw (NEXT_REDIRECT "/login")).
Proof.
  intros Hle. split; [|split].
  - rewrite !getSession_read. cbn [fst]. intros [= Hnull].
    destruct (read_value_later _ _ (session_cookie w) Hle) as [-> | ->]; [done|].
    by rewrite Hnull.
  - intros Hnull.
    destruct (session_of_cookie_later _ _ c Hle) as [-> | ->]; done.
  - pose proof (getSession_read e w) as Hread.
    pose proof (getSession_read e' w) as Hread'.
    assert (Hfst : fst (getSession e w) = Normal (read_value (now e) (session_cookie w)))
      by (by rewrite Hread).
    assert (Hfst' : fst (getSession e' w) = Normal (read_value (now e') (session_cookie w)))
      by (by rewrite Hread').
    destruct (ToBoolean (OptGet (read_value (now e) (session_cookie w)) "userId")) eqn:Hid.
    { rewrite (verifySession_run e w _ Hfst Hid). discriminate. }
    intros _.
    assert (Hid' : ToBoolean (OptGet (read_value (now e') (session_cookie w)) "userId")
                   = false).
    { destruct (read_value_later _ _ (session_cookie w) Hle) as [-> | ->]; done. }
    by rewrite (verifySession_redirects e' w _ Hfst' Hid').
Qed.

Lemma includes_mono (l l' : list string) (v : jsval) :
  (∀ r, r ∈ l → r ∈ l') → includes l v = true → includes l' v = true.
Proof.
  intros Hsub. unfold includes. rewrite !existsb_exists.
  intros (r & Hin & Hr). exists r. split; [|done].
  apply list_elem_of_In, Hsub, list_elem_of_In, Hin.
Qed.

(** X21. Roles of the guard: whoever [requireRole] admits for a list of
    roles, it admits, with the same record, for every list that contains
    those roles; and for the empty list it admits nobody. *)
Theorem requireRole_grows_with_the_roles (l l' : list string) (e : env) (w : world) :
  (∀ r, r ∈ l → r ∈ l') →
  (∀ session, fst (requireRole l e w) = Normal session →
              fst (requireRole l' e w) = Normal session)
  ∧ ∀ session, fst (requireRole [] e w) ≠ Normal session.
Proof.
  intros Hsub.
  pose proof (getSession_read e w) as Hread.
  set (s := read_value (now e) (session_cookie w)) in *.
  assert (Hfst : fst (getSession e w) = Normal s) by (by rewrite Hread).
  destruct (ToBoolean (OptGet s "userId")) eqn:Hid.
  - rewrite !(requireRole_run _ e w s Hfst Hid). split.
    + intros session.
      destruct (includes l (OptGet s "role")) eqn:Hl; [|discriminate].
      by rewrite (includes_mono l l' _ Hsub Hl).
    + intros session. cbn. discriminate.
  - unfold requireRole, bind.
    rewrite (verifySession_redirects e w s Hfst Hid). cbn. split.
    + intros session. discriminate.
    + intros session. discriminate.
Qed.

(** X22. The scalable gatekeeper redirects once, like the first one: only
    to [/login] with the requested path as its [redirect] parameter or to
    [/dashboard], and the page it redirects to is let through for the same
    cookies at the same instant. *)
Theorem proxy_redirects_once (now : Z) (req : NextRequest) (target : URL) :
  ScalableProxy.proxy now req = redirect_to target →
  (target = {| url_pathname := "/login"; searchParams := [("redirect", pathname req)] |}
   ∨ target = {| url_pathname := "/dashboard"; searchParams := [] |})
  ∧ ScalableProxy.proxy now {| pathname := url_pathname target;
                               request_cookies := request_cookies req |} = next.
Proof.
  unfold ScalableProxy.proxy. cbn [pathname request_cookies].
  generalize (ScalableProxy.session_of_cookie now (request_cookies req !! "session")).
  intros session.
  assert (Hloop : ∀ l, (∀ route allowed, (route, allowed) ∈ l →
                          String.prefix route (pathname req) = true →
                          existsb (λ r, String.prefix r (pathname req))
                            ScalableProxy.protectedRoutes = true) →
            ∀ response, ScalableProxy.role_check (pathname req) session l = Some response →
              response = redirect_to {| url_pathname := "/dashboard"; searchParams := [] |}
              ∧ existsb (λ r, String.prefix r (pathname req))
                  ScalableProxy.protectedRoutes = true).
  { induction l as [|[route allowed] l IH]; intros Hall response; cbn; [discriminate|].
    destruct (String.prefix route (pathname req)) eqn:Hp; cbn [andb].
    - destruct (_ || _).
      + intros [= <-]. split; [done|]. by apply (Hall route allowed); [left|].
      + apply IH. intros r a Hin. apply (Hall r a). by right.
    - apply IH. intros r a Hin. apply (Hall r a). by right. }
  assert (Hroutes : ∀ route allowed, (route, allowed) ∈ ScalableProxy.roleRoutes →
                      String.prefix route (pathname req) = true →
                      existsb (λ r, String.prefix r (pathname req))
                        ScalableProxy.protectedRoutes = true).
  { intros route allowed Hin Hp. apply existsb_exists. exists route. split; [|done].
    unfold ScalableProxy.roleRoutes in Hin. unfold ScalableProxy.protectedRoutes.
    rewrite !elem_of_cons in Hin.
    destruct Hin as [[= -> _] | [[= -> _] | [[= -> _] | Hin]]];
      [| | |by apply elem_of_nil in Hin]; cbn; auto 10. }
  destruct (ToBoolean (OptGet session "userId")) eqn:Hid; cbn [negb].
  - rewrite andb_false_r, !andb_true_r.
    destruct (existsb (String.eqb (pathname req)) ScalableProxy.publicRoutes
              && (pathname req =? "/login")%string).
    { intros [= <-]. split; [by right|]. reflexivity. }
    destruct (ScalableProxy.role_check (pathname req) session ScalableProxy.roleRoutes)
      as [response|] eqn:Hcheck; [|discriminate].
    destruct (Hloop _ Hroutes response Hcheck) as [-> _].
    intros [= <-]. split; [by right|]. reflexivity.
  - rewrite !andb_false_r, andb_true_r.
    destruct (existsb (λ route, String.prefix route (pathname req))
                ScalableProxy.protectedRoutes) eqn:Hprotected.
    { intros [= <-]. split; [by left|]. reflexivity. }
    destruct (ScalableProxy.role_check (pathname req) session ScalableProxy.roleRoutes)
      as [response|] eqn:Hcheck; [|discriminate].
    destruct (Hloop _ Hroutes response Hcheck) as [_ Habs]. congruence.
Qed.

(** X23. From login to the pages: after a login in which both upstream
    calls succeed and the profile carries a user id, a request that carries
    the cookie just stored is, at any instant of the following seven days,
    let through by the gatekeeper on every path other than [/login] and
    outside [/admin], let through under [/admin] exactly when the role of
    the profile is [admin], and sent from [/login] to [/dashboard]. The
    engine must read back the timestamp it printed. *)
Theorem login_then_gatekeeper (st : option LoginFormState) (fd : FormData)
    (email password : string) (id mail role : jsval) (e : env) (w : world)
    (now' : Z) (req : NextRequest) :
  validated fd email password →
  upstream_success e email password id mail role →
  Date_toISOString (now e + seven_days) ≠ "" →
  Date_parse (Date_toISOString (now e + seven_days)) = Some (now e + seven_days) →
  ToBoolean (stored id) = true →
  now' <= now e + seven_days →
  request_cookies req !! "session" = session_cookie (snd (login st fd e w)) →
  middleware now' req
  = if (pathname req =? "/login")%string
    then redirect_to {| url_pathname := "/dashboard"; searchParams := [] |}
    else if String.prefix "/admin" (pathname req)
            && negb (strict_eq_string (stored role) "admin")
         then redirect_to {| url_pathname := "/dashboard"; searchParams := [] |}
         else next.
Proof.
  intros Hv Hsucc Hne Hparse Hid Hnow Hcookie.
  destruct (login_success_run st fd email password e w id mail role Hv Hsucc)
    as (bearer & Hrun).
  rewrite Hrun in Hcookie. unfold session_cookie in Hcookie. cbn [snd cookies] in Hcookie.
  rewrite lookup_insert_eq in Hcookie.
  cbn [fmap option_fmap option_map session_cookie_for cookie_value] in Hcookie.
  destruct (stored_record_fields id mail role (now e + seven_days))
    as (Hfid & _ & Hfrole & Hfexp).
  assert (Hdecode : session_of_cookie now' (request_cookies req !! "session")
                    = stored_record id mail role (now e + seven_days)).
  { rewrite Hcookie. unfold JSON_stringify, stored_record.
    rewrite (session_of_cookie_timestamp _ (now e + seven_days) _
               (Date_toISOString (now e + seven_days))); [|exact Hfexp|exact Hne|exact Hparse].
    assert (Hlt : (now e + seven_days <? now') = false) by (apply Z.ltb_ge; lia).
    by rewrite Hlt. }
  destruct (String.eqb_spec (pathname req) "/login") as [Hlogin|Hother].
  - unfold middleware. rewrite Hdecode, Hfid, Hid, Hlogin. reflexivity.
  - rewrite (gatekeeper_with_session now' req _ Hdecode); [|by rewrite Hfid|exact Hother].
    by rewrite Hfrole.
Qed.

End OverTime.

Lemma refused_session_witness :
  fst (getSession (H := Reference.engine) (at_time (a_week_later + 2) Mocks.handlers)
         (jar_with (JSONText (JObj customer_record))))
  = Normal JNull.
Proof.
  apply (refused_session_stays_refused (H := Reference.engine)
           (at_time (a_week_later + 1) Mocks.handlers)
           (at_time (a_week_later + 2) Mocks.handlers)
           (jar_with (JSONText (JObj customer_record))) None).
  - vm_compute. discriminate.
  - vm_compute. reflexivity.
Defined.

Lemma requireRole_grows_witness :
  fst (requireRole (H := Reference.engine) ["admin"; "editor"]
         (at_time new_year Mocks.handlers) (jar_with (JSONText (JObj admin_record))))
  = Normal {| isAuth := true;
              userId := Some (int 2);
              email := Some (JStr "admin@mail.com");
              role := Some (JStr "admin") |}.
Proof.
  apply (requireRole_grows_with_the_roles (H := Reference.engine) ["admin"] ["admin"; "editor"]
           (at_time new_year Mocks.handlers) (jar_with (JSONText (JObj admin_record)))).
  - intros r Hr. apply elem_of_cons in Hr as [-> | Hr];
      [apply list_elem_of_here | by apply elem_of_nil in Hr].
  - vm_compute. reflexivity.
Defined.

Lemma proxy_redirects_once_witness :
  ({| url_pathname := "/dashboard"; searchParams := [] |}
   = {| url_pathname := "/login"; searchParams := [("redirect", "/editor/drafts")] |}
   ∨ {| url_pathname := "/dashboard"; searchParams := [] |}
     = {| url_pathname := "/dashboard"; searchParams := [] |})
  ∧ ScalableProxy.proxy (H := Reference.engine) new_year
      {| pathname := "/dashboard";
         request_cookies :=
           request_cookies (request_for "/editor/drafts"
                              (Some (JSONText (JObj customer_record)))) |}
    = next.
Proof.
  apply (proxy_redirects_once (H := Reference.engine) new_year
           (request_for "/editor/drafts" (Some (JSONText (JObj customer_record))))
           {| url_pathname := "/dashboard"; searchParams := [] |}).
  vm_compute. reflexivity.
Defined.

Lemma login_then_gatekeeper_witness :
  middleware (H := Reference.engine) a_week_later
    (request_for "/admin/users" (Some (JSONText (JObj customer_record))))
  = redirect_to {| url_pathname := "/dashboard"; searchParams := [] |}.
Proof.
  apply (login_then_gatekeeper (H := Reference.engine) None good_form
           "john@mail.com" "changeme"
           (Some (int 1)) (Some (JStr "john@mail.com")) (Some (JStr "customer"))
           (at_time new_year Mocks.handlers) empty_jar a_week_later
           (request_for "/admin/users" (Some (JSONText (JObj customer_record))))).
  - repeat split; reflexivity.
  - exists {| status := 200;
              response_body :=
                JSONText (JObj [("access_token", JStr "mock-access-token-123");
                                ("refresh_token", JStr "mock-refresh-token-456")]) |},
      "mock-access-token-123",
      {| status := 200; response_body := JSONText Mocks.mock_user |}.
    repeat split; reflexivity.
  - discriminate.
  - reflexivity.
  - reflexivity.
  - vm_compute. discriminate.
  - vm_compute. reflexivity.
Defined.
